(** * FixIt: booking lifecycle and provider ledger

    A shallow embedding of the booking state machine, the provider wallet
    and the payment routes of the FixIt marketplace backend, with the
    properties of its specification stated and settled against it.

    Modelling conventions, used throughout:
    - a JavaScript [Number] holding money is an exact rational ([Q]);
      a [Date] is an integer number of milliseconds ([Z]), and the clock
      reads made while one request is handled return one value, [now];
    - a Mongoose collection is a finite map from [_id] to documents
      (payments: a list in insertion order); [findById] is map lookup and
      [save] writes the document back under the [_id] it was read from; a
      lookup may miss, a write goes through (schema validation is not part
      of the model);
    - a route is a function from the request and the store to a response
      and the store it leaves behind; an early [return res.status(..)]
      leaves the store as it was; a thrown [TypeError] on a missing
      document becomes the status-500 reply of the error handler, with
      the saves made before it kept. *)

From stdpp Require Import gmap strings list.
From Stdlib Require Import QArith Qround Lqa ZArith DecimalString.

Set Default Proof Using "Type".

(** Numbers are read as [nat] unless the type says otherwise. *)
Close Scope Q_scope.

(** Mongo [ObjectId]s are numbered; a [Date] counts milliseconds. *)
Abbreviation ObjectId := N (only parsing).
Abbreviation Date := Z (only parsing).

(** ** JavaScript number primitives *)

(** [a < b] on numbers. *)
Definition Number_lt (a b : Q) : bool := negb (Qle_bool b a).

(** [a > b] on numbers. *)
Definition Number_gt (a b : Q) : bool := Number_lt b a.

(** [Math.max(a, b)]. *)
Definition Math_max (a b : Q) : Q := if Number_lt a b then b else a.

(** [Math.round(x)]: the nearest integer, halves towards plus infinity. *)
Definition Math_round (x : Q) : Z := Qfloor (x + (1 # 2)).

(** [d1 - d2] on dates: a number of milliseconds. *)
Definition Date_diff (d1 d2 : Date) : Q := inject_Z (d1 - d2).


(** ** models/User.js *)

Module User.

Inductive Role := client | provider | admin.

#[global] Instance Role_eq_dec : EqDecision Role.
Proof. solve_decision. Defined.

Record Wallet := mkWallet {
  balance : Q;
  pendingBalance : Q;
  totalEarnings : Q
}.

Record ProviderInfo := mkProviderInfo {
  isActivated : bool;
  activationFeePaid : bool;
  wallet : Wallet
}.

Record t := mk {
  _id : ObjectId;
  firebaseUid : string;
  role : Role;
  isActive : bool;
  providerInfo : ProviderInfo
}.

Definition set_wallet (this : t) (w : Wallet) : t :=
  {| _id := _id this;
     firebaseUid := firebaseUid this;
     role := role this;
     isActive := isActive this;
     providerInfo :=
       {| isActivated := isActivated (providerInfo this);
          activationFeePaid := activationFeePaid (providerInfo this);
          wallet := w |} |}.

Definition walletOf (this : t) : Wallet := wallet (providerInfo this).

(** [userSchema.methods.isProviderActivated] *)
Definition isProviderActivated (this : t) : bool :=
  bool_decide (role this = provider)
  && isActivated (providerInfo this)
  && activationFeePaid (providerInfo this).

(** [userSchema.methods.addEarnings] *)
Definition addEarnings (this : t) (amount : Q) : t :=
  if decide (role this = provider) then
    set_wallet this
      {| balance := balance (walletOf this) + amount;
         pendingBalance := pendingBalance (walletOf this);
         totalEarnings := totalEarnings (walletOf this) + amount |}
  else this.

(** [userSchema.methods.addPendingEarnings] *)
Definition addPendingEarnings (this : t) (amount : Q) : t :=
  if decide (role this = provider) then
    set_wallet this
      {| balance := balance (walletOf this);
         pendingBalance := pendingBalance (walletOf this) + amount;
         totalEarnings := totalEarnings (walletOf this) |}
  else this.

(** [userSchema.methods.confirmEarnings] *)
Definition confirmEarnings (this : t) (amount : Q) : t :=
  if decide (role this = provider) then
    set_wallet this
      {| balance := balance (walletOf this) + amount;
         pendingBalance := pendingBalance (walletOf this) - amount;
         totalEarnings := totalEarnings (walletOf this) |}
  else this.

End User.

(** ** utils/paymentService.js *)

Module PaymentService.

Inductive FeeType := booking | activation | withdrawal | otherFee.

(** [PaymentService.calculatePlatformFee(amount, feeType)]; [otherFee]
    stands for a key the [fees] table lacks. *)
Definition calculatePlatformFee (amount : Q) (feeType : FeeType) : Q :=
  match feeType with
  | withdrawal => Math_max (amount * 0.02) 2
  | booking => 5
  | activation => 20
  | otherFee => 0
  end.

Record WithdrawalResult := mkWithdrawalResult {
  wr_success : bool;
  wr_withdrawalId : string;
  wr_error : string
}.

(** [PaymentService.processProviderWithdrawal]: the minimum of 50 EGP is
    the only way it fails; [freshId] is the identifier it draws from the
    clock and the random generator. *)
Definition processProviderWithdrawal (freshId : string) (amount : Q)
  : WithdrawalResult :=
  if Number_lt amount 50 then
    {| wr_success := false; wr_withdrawalId := "";
       wr_error := "Minimum withdrawal amount is 50 EGP" |}
  else
    {| wr_success := true; wr_withdrawalId := freshId; wr_error := "" |}.

End PaymentService.

(** ** models/Service.js *)

Module Service.

Record t := mk {
  provider : ObjectId;
  completedBookings : Z
}.

(** [serviceSchema.methods.incrementCompleted] *)
Definition incrementCompleted (this : t) : t :=
  {| provider := provider this;
     completedBookings := completedBookings this + 1 |}.

End Service.

(** ** models/Booking.js *)

Module Booking.

Inductive Status :=
  pending | accepted | rejected | in_progress | completed | cancelled
  | disputed.

#[global] Instance Status_eq_dec : EqDecision Status.
Proof. solve_decision. Defined.

Inductive PaymentStatus :=
  pay_pending | pay_processing | pay_completed | pay_failed | pay_refunded.

Inductive ConfirmationMethod := manual | auto.

Record Pricing := mkPricing {
  servicePrice : Q;
  addOnsPrice : Q;
  platformFee : Q;
  totalAmount : Q
}.

Record StatusEntry := mkStatusEntry {
  se_status : Status;
  se_timestamp : Date;
  se_updatedBy : ObjectId;
  se_reason : string
}.

Record ProviderResponse := mkProviderResponse {
  pr_accepted : bool;
  pr_respondedAt : Date;
  pr_message : string
}.

Record Execution := mkExecution {
  startedAt : option Date;
  completedAt : option Date;
  actualDuration : option Z;
  workPhotos : list string;
  completionNotes : string
}.

Record Payment := mkPayment {
  pay_status : PaymentStatus;
  pay_paidAt : option Date
}.

Record Confirmation := mkConfirmation {
  clientConfirmed : bool;
  confirmedAt : option Date;
  autoConfirmAt : option Date;
  confirmationMethod : option ConfirmationMethod
}.

Record Resolution := mkResolution {
  resolvedBy : ObjectId;
  resolvedAt : Date;
  res_resolution : string;
  res_refundAmount : Q
}.

Record Dispute := mkDispute {
  isDisputed : bool;
  disputedBy : option ObjectId;
  disputedAt : option Date;
  dis_reason : string;
  dis_description : string;
  dis_evidence : list string;
  resolution : option Resolution
}.

Record Cancellation := mkCancellation {
  cancelledBy : ObjectId;
  cancelledAt : Date;
  can_reason : string
}.

(** The document. [paymentStatus] and [paidAt] are the two top-level
    fields the payment routes write ([booking.paymentStatus = 'paid']);
    [None] is the field not set. *)
Record t := mk {
  bookingId : string;
  client : ObjectId;
  provider : ObjectId;
  service : ObjectId;
  scheduledDate : Date;
  pricing : Pricing;
  status : Status;
  statusHistory : list StatusEntry;
  providerResponse : option ProviderResponse;
  execution : Execution;
  payment : Payment;
  confirmation : Confirmation;
  dispute : Dispute;
  cancellation : option Cancellation;
  paymentStatus : option string;
  paidAt : option Date
}.

Definition set_status (s : Status) (h : list StatusEntry) (this : t) : t :=
  mk (bookingId this) (client this) (provider this) (service this)
     (scheduledDate this) (pricing this) s h (providerResponse this)
     (execution this) (payment this) (confirmation this) (dispute this)
     (cancellation this) (paymentStatus this) (paidAt this).

Definition set_providerResponse (r : ProviderResponse) (this : t) : t :=
  mk (bookingId this) (client this) (provider this) (service this)
     (scheduledDate this) (pricing this) (status this) (statusHistory this)
     (Some r) (execution this) (payment this) (confirmation this)
     (dispute this) (cancellation this) (paymentStatus this) (paidAt this).

Definition set_execution (e : Execution) (this : t) : t :=
  mk (bookingId this) (client this) (provider this) (service this)
     (scheduledDate this) (pricing this) (status this) (statusHistory this)
     (providerResponse this) e (payment this) (confirmation this)
     (dispute this) (cancellation this) (paymentStatus this) (paidAt this).

Definition set_payment (p : Payment) (this : t) : t :=
  mk (bookingId this) (client this) (provider this) (service this)
     (scheduledDate this) (pricing this) (status this) (statusHistory this)
     (providerResponse this) (execution this) p (confirmation this)
     (dispute this) (cancellation this) (paymentStatus this) (paidAt this).

Definition set_confirmation (c : Confirmation) (this : t) : t :=
  mk (bookingId this) (client this) (provider this) (service this)
     (scheduledDate this) (pricing this) (status this) (statusHistory this)
     (providerResponse this) (execution this) (payment this) c
     (dispute this) (cancellation this) (paymentStatus this) (paidAt this).

Definition set_dispute (d : Dispute) (this : t) : t :=
  mk (bookingId this) (client this) (provider this) (service this)
     (scheduledDate this) (pricing this) (status this) (statusHistory this)
     (providerResponse this) (execution this) (payment this)
     (confirmation this) d (cancellation this) (paymentStatus this)
     (paidAt this).

Definition set_cancellation (c : Cancellation) (this : t) : t :=
  mk (bookingId this) (client this) (provider this) (service this)
     (scheduledDate this) (pricing this) (status this) (statusHistory this)
     (providerResponse this) (execution this) (payment this)
     (confirmation this) (dispute this) (Some c) (paymentStatus this)
     (paidAt this).

Definition set_paid (at_ : Date) (this : t) : t :=
  mk (bookingId this) (client this) (provider this) (service this)
     (scheduledDate this) (pricing this) (status this) (statusHistory this)
     (providerResponse this) (execution this) (payment this)
     (confirmation this) (dispute this) (cancellation this) (Some "paid")
     (Some at_).

(** 48 hours in milliseconds: [48 * 60 * 60 * 1000]. *)
Definition autoConfirmDelay : Z := 48 * 60 * 60 * 1000.

(** [bookingSchema.methods.updateStatus(newStatus, updatedBy, reason)];
    the pushed entry takes its [timestamp] from the schema default
    [Date.now]. *)
Definition updateStatus (now : Date) (newStatus : Status)
    (updatedBy : ObjectId) (reason : string) (this : t) : t :=
  let this :=
    set_status newStatus
      (statusHistory this ++
         [ {| se_status := status this; se_timestamp := now;
              se_updatedBy := updatedBy; se_reason := reason |} ])
      this in
  if decide (newStatus = completed) then
    set_confirmation
      {| clientConfirmed := clientConfirmed (confirmation this);
         confirmedAt := confirmedAt (confirmation this);
         autoConfirmAt := Some (now + autoConfirmDelay)%Z;
         confirmationMethod := confirmationMethod (confirmation this) |}
      (set_execution
         {| startedAt := startedAt (execution this);
            completedAt := Some now;
            actualDuration := actualDuration (execution this);
            workPhotos := workPhotos (execution this);
            completionNotes := completionNotes (execution this) |}
         this)
  else this.

(** [bookingSchema.methods.canBeCancelled] *)
Definition canBeCancelled (now : Date) (this : t) : bool :=
  let hoursDifference :=
    (Date_diff (scheduledDate this) now / (1000 * 60 * 60))%Q in
  (bool_decide (status this = pending)
   || bool_decide (status this = accepted))
  && Number_gt hoursDifference 2.


End Booking.

(** ** models/Payment.js *)

Module Payment.

Inductive Type_ :=
  activation_fee | booking_payment | subscription | withdrawal | refund.

#[global] Instance Type_eq_dec : EqDecision Type_.
Proof. solve_decision. Defined.

Inductive Status :=
  pending | processing | completed | failed | cancelled | refunded.

#[global] Instance Status_eq_dec : EqDecision Status.
Proof. solve_decision. Defined.

(** What the payment routes keep under [metadata]: the split of a
    booking payment, or the fee of a withdrawal. *)
Inductive Metadata :=
| BookingMeta (platformFee providerAmount : Q)
| WithdrawalMeta (withdrawalFee : Q).

(** [metadata.providerAmount]; [None] is [undefined]. *)
Definition providerAmount (m : Metadata) : option Q :=
  match m with
  | BookingMeta _ a => Some a
  | WithdrawalMeta _ => None
  end.

Record t := mk {
  user : ObjectId;
  booking : option ObjectId;
  type : Type_;
  amount : Q;
  method : string;
  status : Status;
  transactionId : string;
  metadata : option Metadata;
  description : string
}.

Definition set_status (s : Status) (this : t) : t :=
  mk (user this) (booking this) (type this) (amount this) (method this) s
     (transactionId this) (metadata this) (description this).

End Payment.

(** ** The document store and HTTP replies *)

Record Store := mkStore {
  users : gmap ObjectId User.t;
  bookings : gmap ObjectId Booking.t;
  services : gmap ObjectId Service.t;
  payments : list Payment.t
}.

Definition saveUser (id : ObjectId) (u : User.t) (st : Store) : Store :=
  mkStore (<[id := u]> (users st)) (bookings st) (services st)
          (payments st).

Definition saveBooking (id : ObjectId) (b : Booking.t) (st : Store)
  : Store :=
  mkStore (users st) (<[id := b]> (bookings st)) (services st)
          (payments st).

Definition saveService (id : ObjectId) (s : Service.t) (st : Store)
  : Store :=
  mkStore (users st) (bookings st) (<[id := s]> (services st))
          (payments st).

(** [payment.save()] of a document read at position [i]. *)
Definition savePayment (i : nat) (p : Payment.t) (st : Store) : Store :=
  mkStore (users st) (bookings st) (services st) (<[i := p]> (payments st)).

(** [Payment.create(..)] / [new Payment(..).save()]. *)
Definition createPayment (p : Payment.t) (st : Store) : Store :=
  mkStore (users st) (bookings st) (services st) (payments st ++ [p]).

(** [User.findOne({ firebaseUid })]: the [_id] it sits under and the
    document. *)
Definition findUserByFirebaseUid (uid : string) (st : Store)
  : option (ObjectId * User.t) :=
  (λ r : nat * (ObjectId * User.t), r.2)
    <$> list_find (λ kv : ObjectId * User.t,
                     User.firebaseUid kv.2 = uid)
                  (map_to_list (users st)).

(** [Payment.findOne({ transactionId })]: the first match and where it
    sits. *)
Definition findPaymentByTransactionId (tid : string) (st : Store)
  : option (nat * Payment.t) :=
  list_find (λ p : Payment.t, Payment.transactionId p = tid) (payments st).

(** [res.status(code).json({ success, message })]. *)
Record Response := mkResponse {
  statusCode : nat;
  success : bool;
  message : string
}.

#[global] Instance Response_eq_dec : EqDecision Response.
Proof. solve_decision. Defined.

Definition ok (msg : string) : Response := mkResponse 200 true msg.
Definition fail (code : nat) (msg : string) : Response :=
  mkResponse code false msg.

(** The error handler's reply to a thrown [TypeError]. *)
Definition serverError : Response :=
  fail 500 "Cannot read properties of null".

(** ** middleware/auth.js *)

Module Auth.

(** [authenticateUser], from the uid of the verified token on; an
    unverifiable token is the [None] uid. *)
Definition authenticateUser (tokenUid : option string) (st : Store)
  : Response + User.t :=
  match tokenUid with
  | None => inl (fail 401 "Invalid or expired token")
  | Some uid =>
      match findUserByFirebaseUid uid st with
      | None => inl (fail 401 "User not found")
      | Some (_, user) =>
          if User.isActive user then inr user
          else inl (fail 401 "Account is deactivated")
      end
  end.

(** [requireRole(role)] for a single role. *)
Definition requireRole (r : User.Role) (user : User.t) : option Response :=
  if decide (User.role user = r) then None
  else Some (fail 403 "Insufficient permissions").

(** [requireBookingAccess]: the reply that ends the request, or
    [req.userBookingRole], which stays undefined ([None]) for an admin. *)
Definition requireBookingAccess (user : User.t) (booking : Booking.t)
  : Response + option User.Role :=
  if decide (User.role user = User.admin) then inr None
  else
    let isClient := bool_decide (Booking.client booking = User._id user) in
    let isProvider :=
      bool_decide (Booking.provider booking = User._id user) in
    if negb isClient && negb isProvider then
      inl (fail 403 "Access denied")
    else inr (Some (if isClient then User.client else User.provider)).

End Auth.

(** ** routes/bookings.js *)

Module Bookings.

(** The middleware chain [loadBooking, requireBookingAccess] that stands
    in front of every [/:id/...] handler. *)
Definition withBooking (user : User.t) (id : ObjectId) (st : Store)
    (handler : Booking.t → option User.Role → Response * Store)
  : Response * Store :=
  match bookings st !! id with
  | None => (fail 404 "Booking not found", st)
  | Some booking =>
      match Auth.requireBookingAccess user booking with
      | inl r => (r, st)
      | inr userBookingRole => handler booking userBookingRole
      end
  end.

(** [PUT /api/bookings/:id/accept]; of the provider's response the
    optional [suggestedTime] is left out. *)
Definition accept (now : Date) (user : User.t) (id : ObjectId)
    (message : string) (st : Store) : Response * Store :=
  withBooking user id st (λ booking userBookingRole,
    if negb (bool_decide (userBookingRole = Some User.provider)) then
      (fail 403 "Only providers can accept bookings", st)
    else if negb (bool_decide (Booking.status booking = Booking.pending))
    then (fail 400 "Booking cannot be accepted in current status", st)
    else
      let booking :=
        Booking.updateStatus now Booking.accepted (User._id user)
          "Provider accepted the booking" booking in
      let booking :=
        Booking.set_providerResponse
          {| Booking.pr_accepted := true; Booking.pr_respondedAt := now;
             Booking.pr_message := message |} booking in
      (ok "Booking accepted successfully", saveBooking id booking st)).

(** [PUT /api/bookings/:id/reject] *)
Definition reject (now : Date) (user : User.t) (id : ObjectId)
    (reason : string) (st : Store) : Response * Store :=
  withBooking user id st (λ booking userBookingRole,
    if bool_decide (reason = "") then
      (fail 400 "Rejection reason is required", st)
    else if negb (bool_decide (userBookingRole = Some User.provider)) then
      (fail 403 "Only providers can reject bookings", st)
    else if negb (bool_decide (Booking.status booking = Booking.pending))
    then (fail 400 "Booking cannot be rejected in current status", st)
    else
      let booking :=
        Booking.updateStatus now Booking.rejected (User._id user) reason
          booking in
      let booking :=
        Booking.set_providerResponse
          {| Booking.pr_accepted := false; Booking.pr_respondedAt := now;
             Booking.pr_message := reason |} booking in
      (ok "Booking rejected", saveBooking id booking st)).

(** [PUT /api/bookings/:id/start] *)
Definition start (now : Date) (user : User.t) (id : ObjectId)
    (st : Store) : Response * Store :=
  withBooking user id st (λ booking userBookingRole,
    if negb (bool_decide (userBookingRole = Some User.provider)) then
      (fail 403 "Only providers can start service", st)
    else if negb (bool_decide (Booking.status booking = Booking.accepted))
    then (fail 400 "Service can only be started for accepted bookings", st)
    else
      let booking :=
        Booking.updateStatus now Booking.in_progress (User._id user)
          "Service started" booking in
      let booking :=
        Booking.set_execution
          {| Booking.startedAt := Some now;
             Booking.completedAt :=
               Booking.completedAt (Booking.execution booking);
             Booking.actualDuration :=
               Booking.actualDuration (Booking.execution booking);
             Booking.workPhotos :=
               Booking.workPhotos (Booking.execution booking);
             Booking.completionNotes :=
               Booking.completionNotes (Booking.execution booking) |}
          booking in
      (ok "Service started successfully", saveBooking id booking st)).

(** The amount both [complete] and [confirm] move:
    [booking.pricing.servicePrice + booking.pricing.addOnsPrice]. *)
Definition earningsAmount (booking : Booking.t) : Q :=
  Booking.servicePrice (Booking.pricing booking)
  + Booking.addOnsPrice (Booking.pricing booking).

(** [PUT /api/bookings/:id/complete]. [actualDuration] is computed from
    [startedAt] before the status update; an unset [startedAt] yields no
    number. *)
Definition complete (now : Date) (user : User.t) (id : ObjectId)
    (completionNotes : string) (workPhotos : list string) (st : Store)
  : Response * Store :=
  withBooking user id st (λ booking userBookingRole,
    if negb (bool_decide (userBookingRole = Some User.provider)) then
      (fail 403 "Only providers can complete service", st)
    else if negb
              (bool_decide (Booking.status booking = Booking.in_progress))
    then
      (fail 400 "Service can only be completed for in-progress bookings",
       st)
    else
      let startTime := Booking.startedAt (Booking.execution booking) in
      let endTime := now in
      let actualDuration :=
        (λ s, Math_round (Date_diff endTime s / (1000 * 60))%Q)
          <$> startTime in
      let booking :=
        Booking.updateStatus now Booking.completed (User._id user)
          "Service completed" booking in
      let booking :=
        Booking.set_execution
          {| Booking.startedAt :=
               Booking.startedAt (Booking.execution booking);
             Booking.completedAt := Some endTime;
             Booking.actualDuration := actualDuration;
             Booking.workPhotos := workPhotos;
             Booking.completionNotes := completionNotes |}
          booking in
      match users st !! Booking.provider booking with
      | None => (serverError, st)
      | Some provider =>
          let provider :=
            User.addPendingEarnings provider (earningsAmount booking) in
          let st := saveUser (Booking.provider booking) provider st in
          match services st !! Booking.service booking with
          | None => (serverError, st)
          | Some service =>
              let st :=
                saveService (Booking.service booking)
                  (Service.incrementCompleted service) st in
              (ok "Service completed successfully. Awaiting client confirmation.",
               saveBooking id booking st)
          end
      end).

(** [PUT /api/bookings/:id/confirm] *)
Definition confirm (now : Date) (user : User.t) (id : ObjectId)
    (st : Store) : Response * Store :=
  withBooking user id st (λ booking userBookingRole,
    if negb (bool_decide (userBookingRole = Some User.client)) then
      (fail 403 "Only clients can confirm service completion", st)
    else if negb (bool_decide (Booking.status booking = Booking.completed))
    then (fail 400 "Only completed services can be confirmed", st)
    else if Booking.clientConfirmed (Booking.confirmation booking) then
      (fail 400 "Service already confirmed", st)
    else
      let booking :=
        Booking.set_confirmation
          {| Booking.clientConfirmed := true;
             Booking.confirmedAt := Some now;
             Booking.autoConfirmAt :=
               Booking.autoConfirmAt (Booking.confirmation booking);
             Booking.confirmationMethod := Some Booking.manual |}
          booking in
      match users st !! Booking.provider booking with
      | None => (serverError, st)
      | Some provider =>
          let provider :=
            User.confirmEarnings provider (earningsAmount booking) in
          let st := saveUser (Booking.provider booking) provider st in
          let booking :=
            Booking.set_payment
              {| Booking.pay_status := Booking.pay_completed;
                 Booking.pay_paidAt := Some now |} booking in
          (ok "Service confirmed successfully. Payment processed.",
           saveBooking id booking st)
      end).

(** [PUT /api/bookings/:id/cancel] *)
Definition cancel (now : Date) (user : User.t) (id : ObjectId)
    (reason : string) (st : Store) : Response * Store :=
  withBooking user id st (λ booking userBookingRole,
    if bool_decide (reason = "") then
      (fail 400 "Cancellation reason is required", st)
    else if negb (Booking.canBeCancelled now booking) then
      (fail 400 "Booking cannot be cancelled at this time", st)
    else
      let booking :=
        Booking.updateStatus now Booking.cancelled (User._id user) reason
          booking in
      let booking :=
        Booking.set_cancellation
          {| Booking.cancelledBy := User._id user;
             Booking.cancelledAt := now;
             Booking.can_reason := reason |} booking in
      (ok "Booking cancelled successfully", saveBooking id booking st)).

(** [PUT /api/bookings/:id/dispute] *)
Definition dispute (now : Date) (user : User.t) (id : ObjectId)
    (reason description : string) (evidence : list string) (st : Store)
  : Response * Store :=
  withBooking user id st (λ booking userBookingRole,
    if bool_decide (reason = "") || bool_decide (description = "") then
      (fail 400 "Validation errors", st)
    else if negb
              (bool_decide (Booking.status booking = Booking.completed)
               || bool_decide
                    (Booking.status booking = Booking.in_progress))
    then
      (fail 400 "Only completed or in-progress bookings can be disputed",
       st)
    else if Booking.isDisputed (Booking.dispute booking) then
      (fail 400 "Booking is already disputed", st)
    else
      let booking :=
        Booking.updateStatus now Booking.disputed (User._id user) reason
          booking in
      let booking :=
        Booking.set_dispute
          {| Booking.isDisputed := true;
             Booking.disputedBy := Some (User._id user);
             Booking.disputedAt := Some now;
             Booking.dis_reason := reason;
             Booking.dis_description := description;
             Booking.dis_evidence := evidence;
             Booking.resolution := None |} booking in
      (ok "Dispute created successfully. Admin will review.",
       saveBooking id booking st)).

End Bookings.

(** ** routes/admin.js *)

Module Admin.

(** The document [resolve-dispute] hands to [Payment.create] for a refund
    of [r]. *)
Definition refundPayment (id : ObjectId) (booking : Booking.t) (r : Q)
  : Payment.t :=
  {| Payment.user := Booking.client booking;
     Payment.booking := Some id;
     Payment.type := Payment.refund;
     Payment.amount := r;
     Payment.method := "admin_refund";
     Payment.status := Payment.completed;
     Payment.transactionId := "";
     Payment.metadata := None;
     Payment.description :=
       "Dispute resolution refund for booking "
       +:+ Booking.bookingId booking |}.

(** [PUT /api/admin/bookings/:id/resolve-dispute], behind
    [requireRole('admin')]. [refundAmount] is optional in the body. *)
Definition resolveDispute (now : Date) (user : User.t) (id : ObjectId)
    (resolution : string) (refundAmount : option Q) (st : Store)
  : Response * Store :=
  match Auth.requireRole User.admin user with
  | Some r => (r, st)
  | None =>
      if bool_decide (resolution = "")
         || from_option (λ r, Number_lt r 0) false refundAmount
      then (fail 400 "Validation errors", st)
      else
        match bookings st !! id with
        | None => (fail 404 "Booking not found", st)
        | Some booking =>
            if negb
                 (bool_decide (Booking.status booking = Booking.disputed))
            then (fail 400 "Booking is not disputed", st)
            else
              let d := Booking.dispute booking in
              let booking :=
                Booking.set_dispute
                  {| Booking.isDisputed := Booking.isDisputed d;
                     Booking.disputedBy := Booking.disputedBy d;
                     Booking.disputedAt := Booking.disputedAt d;
                     Booking.dis_reason := Booking.dis_reason d;
                     Booking.dis_description := Booking.dis_description d;
                     Booking.dis_evidence := Booking.dis_evidence d;
                     Booking.resolution :=
                       Some {| Booking.resolvedBy := User._id user;
                               Booking.resolvedAt := now;
                               Booking.res_resolution := resolution;
                               Booking.res_refundAmount :=
                                 default 0%Q refundAmount |} |}
                  booking in
              let booking :=
                Booking.updateStatus now Booking.completed (User._id user)
                  "Dispute resolved by admin" booking in
              let st := saveBooking id booking st in
              let st :=
                match refundAmount with
                | Some r =>
                    if Number_gt r 0 then
                      createPayment (refundPayment id booking r) st
                    else st
                | None => st
                end in
              (ok "Dispute resolved successfully", st)
        end
  end.

End Admin.

(** ** routes/payments.js *)

Module Payments.

(** The wallet credit both [POST /payments/process] and the Stripe
    webhook apply to the provider they loaded:
    [wallet.balance += providerAmount; wallet.totalEarnings +=
    providerAmount]. The wallet is always there (schema defaults), so the
    guard that would create an empty one never fires. *)
Definition creditWallet (provider : User.t) (providerAmount : Q) : User.t :=
  User.set_wallet provider
    {| User.balance := User.balance (User.walletOf provider) + providerAmount;
       User.pendingBalance := User.pendingBalance (User.walletOf provider);
       User.totalEarnings :=
         User.totalEarnings (User.walletOf provider) + providerAmount |}.

(** The wallet deduction of [POST /payments/withdraw]:
    [user.providerInfo.wallet.balance -= totalDeduction]. *)
Definition debitWallet (user : User.t) (totalDeduction : Q) : User.t :=
  User.set_wallet user
    {| User.balance := User.balance (User.walletOf user) - totalDeduction;
       User.pendingBalance := User.pendingBalance (User.walletOf user);
       User.totalEarnings := User.totalEarnings (User.walletOf user) |}.

(** [POST /payments/withdraw]. [reqUser] is [req.user], [userId] is what
    the route reads as [req.user.uid], and [freshId] the identifier the
    payment service draws. Of the body validators, [amount] being a number
    and [accountDetails] an object are in the types; [method] not being
    empty is checked. *)
Definition withdraw (freshId : string) (reqUser : User.t) (userId : string)
    (amount : Q) (method : string) (st : Store) : Response * Store :=
  match Auth.requireRole User.provider reqUser with
  | Some r => (r, st)
  | None =>
      if bool_decide (method = "") then (fail 400 "Validation failed", st)
      else
      match findUserByFirebaseUid userId st with
      | None => (fail 403 "Only providers can request withdrawals", st)
      | Some (key, user) =>
          if negb (bool_decide (User.role user = User.provider)) then
            (fail 403 "Only providers can request withdrawals", st)
          else if negb (User.isActivated (User.providerInfo user)) then
            (fail 400
               "Provider account must be activated to request withdrawals",
             st)
          else
            let currentBalance := User.balance (User.walletOf user) in
            let withdrawalFee :=
              PaymentService.calculatePlatformFee amount
                PaymentService.withdrawal in
            let totalDeduction := (amount + withdrawalFee)%Q in
            if Number_lt currentBalance totalDeduction then
              (fail 400 "Insufficient balance", st)
            else
              let withdrawalResult :=
                PaymentService.processProviderWithdrawal freshId amount in
              if negb (PaymentService.wr_success withdrawalResult) then
                (fail 400 "Withdrawal processing failed", st)
              else
                let st :=
                  createPayment
                    {| Payment.user := User._id user;
                       Payment.booking := None;
                       Payment.type := Payment.withdrawal;
                       Payment.amount := - amount;
                       Payment.method := method;
                       Payment.status := Payment.processing;
                       Payment.transactionId :=
                         PaymentService.wr_withdrawalId withdrawalResult;
                       Payment.metadata :=
                         Some (Payment.WithdrawalMeta withdrawalFee);
                       Payment.description := "" |} st in
                let st := saveUser key (debitWallet user totalDeduction) st in
                (ok "", st)
      end
  end.

Record StripeEvent := mkStripeEvent {
  ev_type : string;
  ev_id : string
}.

(** The event the route builds for itself:
    [{ type: 'payment_intent.succeeded',
       data: { object: { id: 'pi_demo_' + Date.now() } } }]. *)
Definition demoEvent (now : Date) : StripeEvent :=
  {| ev_type := "payment_intent.succeeded";
     ev_id := "pi_demo_" +:+ NilZero.string_of_int (Z.to_int now) |}.

(** [res.json({ received: true })]. *)
Definition received : Response := mkResponse 200 true "received".

(** The body of the webhook route once the event is at hand. A provider
    that cannot be loaded, or a payment without a [providerAmount], stops
    the route in its [catch] (status 400) after the payment and the
    booking were saved. *)
Definition handleStripeEvent (now : Date) (event : StripeEvent)
    (st : Store) : Response * Store :=
  if bool_decide (ev_type event = "payment_intent.succeeded") then
    match findPaymentByTransactionId (ev_id event) st with
    | None => (received, st)
    | Some (i, payment) =>
        let payment := Payment.set_status Payment.completed payment in
        let st := savePayment i payment st in
        if bool_decide (Payment.type payment = Payment.booking_payment)
        then
          match Payment.booking payment with
          | None => (received, st)
          | Some bid =>
              match bookings st !! bid with
              | None => (received, st)
              | Some booking =>
                  let booking := Booking.set_paid now booking in
                  let st := saveBooking bid booking st in
                  match Payment.metadata payment
                          ≫= Payment.providerAmount,
                        users st !! Booking.provider booking with
                  | Some providerAmount, Some provider =>
                      let st :=
                        saveUser (Booking.provider booking)
                          (creditWallet provider providerAmount) st in
                      (received, st)
                  | _, _ => (fail 400 "Webhook processing failed", st)
                  end
              end
          end
        else (received, st)
    end
  else (received, st).

(** [POST /payments/webhook/stripe] *)
Definition stripeWebhook (now : Date) (st : Store) : Response * Store :=
  handleStripeEvent now (demoEvent now) st.

End Payments.

(** ** The API as a whole: requests handled one after the other

    The routes that write a booking's status, history or confirmation, or
    a wallet. Not among them: creating a booking (it adds a document and
    touches no other), attaching a review (it sets [booking.review] only),
    and [POST /payments/process], which answers 400 before any write
    because it asks for the status 'confirmed', which no booking has. *)

Module Api.

Inductive Request :=
| Accept (id : ObjectId) (message : string)
| Reject (id : ObjectId) (reason : string)
| Start (id : ObjectId)
| Complete (id : ObjectId) (completionNotes : string)
    (workPhotos : list string)
| Confirm (id : ObjectId)
| Cancel (id : ObjectId) (reason : string)
| Dispute (id : ObjectId) (reason description : string)
    (evidence : list string)
| ResolveDispute (id : ObjectId) (resolution : string)
    (refundAmount : option Q)
| Withdraw (userId : string) (amount : Q) (method : string)
| StripeWebhook.

(** One request as the server meets it: the clock, the uid of the
    bearer token ([None]: no valid token), the identifier the payment
    service would draw, and the route with its parameters. *)
Record Call := mkCall {
  at_ : Date;
  tokenUid : option string;
  freshId : string;
  request : Request
}.

(** Every route but the webhook sits behind [authenticateUser]. *)
Definition dispatch (c : Call) (st : Store) : Response * Store :=
  match request c with
  | StripeWebhook => Payments.stripeWebhook (at_ c) st
  | r =>
      match Auth.authenticateUser (tokenUid c) st with
      | inl resp => (resp, st)
      | inr user =>
          match r with
          | Accept id message => Bookings.accept (at_ c) user id message st
          | Reject id reason => Bookings.reject (at_ c) user id reason st
          | Start id => Bookings.start (at_ c) user id st
          | Complete id notes photos =>
              Bookings.complete (at_ c) user id notes photos st
          | Confirm id => Bookings.confirm (at_ c) user id st
          | Cancel id reason => Bookings.cancel (at_ c) user id reason st
          | Dispute id reason description evidence =>
              Bookings.dispute (at_ c) user id reason description evidence
                st
          | ResolveDispute id resolution refundAmount =>
              Admin.resolveDispute (at_ c) user id resolution refundAmount
                st
          | Withdraw userId amount method =>
              Payments.withdraw (freshId c) user userId amount method st
          | StripeWebhook => Payments.stripeWebhook (at_ c) st
          end
      end
  end.

(** The store after a sequence of requests. *)
Definition run (cs : list Call) (st : Store) : Store :=
  foldl (λ st c, (dispatch c st).2) st cs.

(** The replies to a sequence of requests, in order. *)
Fixpoint replies (cs : list Call) (st : Store) : list Response :=
  match cs with
  | [] => []
  | c :: cs => (dispatch c st).1 :: replies cs (dispatch c st).2
  end.

(** The reply of the one path of [Bookings.confirm] that calls
    [provider.confirmEarnings]. *)
Definition confirmed : Response :=
  ok "Service confirmed successfully. Payment processed.".

(** Whether handling [c] in [st] calls [confirmEarnings] for booking
    [id]. *)
Definition callsConfirmEarnings (id : ObjectId) (c : Call) (st : Store)
  : bool :=
  match request c with
  | Confirm id' =>
      bool_decide (id' = id) && bool_decide ((dispatch c st).1 = confirmed)
  | _ => false
  end.

(** How many times a sequence of requests calls [confirmEarnings] for
    booking [id]. *)
Fixpoint confirmEarningsCalls (id : ObjectId) (cs : list Call) (st : Store)
  : nat :=
  match cs with
  | [] => 0
  | c :: cs =>
      (if callsConfirmEarnings id c st then 1 else 0)
      + confirmEarningsCalls id cs (dispatch c st).2
  end.

End Api.

(** ** A concrete marketplace, for running the model *)

Module Scenario.

Definition emptyWallet : User.Wallet :=
  {| User.balance := 0; User.pendingBalance := 0; User.totalEarnings := 0 |}.

Definition mkUser (id : ObjectId) (uid : string) (r : User.Role)
    (w : User.Wallet) : User.t :=
  {| User._id := id; User.firebaseUid := uid; User.role := r;
     User.isActive := true;
     User.providerInfo :=
       {| User.isActivated := bool_decide (r = User.provider);
          User.activationFeePaid := bool_decide (r = User.provider);
          User.wallet := w |} |}.

Definition alice : User.t := mkUser 1 "uid-alice" User.client emptyWallet.
Definition bob : User.t := mkUser 2 "uid-bob" User.provider emptyWallet.
Definition root : User.t := mkUser 3 "uid-root" User.admin emptyWallet.

(** A provider with [b] EGP available. *)
Definition bobWith (b : Q) : User.t :=
  mkUser 2 "uid-bob" User.provider
    {| User.balance := b; User.pendingBalance := 0;
       User.totalEarnings := b |}.

Definition plumbing : Service.t :=
  {| Service.provider := 2; Service.completedBookings := 0 |}.

(** 1 January 2024, 00:00 UTC, in milliseconds. *)
Definition t0 : Date := 1704067200000.
Definition hour : Z := 60 * 60 * 1000.

(** Alice's booking of Bob's service: 200 + 50 EGP and a fee of 5. *)
Definition booking (s : Booking.Status) (started : option Date)
    (isConfirmed : bool) : Booking.t :=
  {| Booking.bookingId := "SLH1704067200000ABCDE";
     Booking.client := 1; Booking.provider := 2; Booking.service := 10;
     Booking.scheduledDate := t0 + 24 * hour;
     Booking.pricing :=
       {| Booking.servicePrice := 200; Booking.addOnsPrice := 50;
          Booking.platformFee := 5; Booking.totalAmount := 255 |};
     Booking.status := s;
     Booking.statusHistory := [];
     Booking.providerResponse := None;
     Booking.execution :=
       {| Booking.startedAt := started; Booking.completedAt := None;
          Booking.actualDuration := None; Booking.workPhotos := [];
          Booking.completionNotes := "" |};
     Booking.payment :=
       {| Booking.pay_status := Booking.pay_pending;
          Booking.pay_paidAt := None |};
     Booking.confirmation :=
       {| Booking.clientConfirmed := isConfirmed;
          Booking.confirmedAt := None; Booking.autoConfirmAt := None;
          Booking.confirmationMethod := None |};
     Booking.dispute :=
       {| Booking.isDisputed := false; Booking.disputedBy := None;
          Booking.disputedAt := None; Booking.dis_reason := "";
          Booking.dis_description := ""; Booking.dis_evidence := [];
          Booking.resolution := None |};
     Booking.cancellation := None;
     Booking.paymentStatus := None;
     Booking.paidAt := None |}.

(** The marketplace with the one booking [b] under id 100 and the
    payments [ps]. *)
Definition market (provider : User.t) (b : Booking.t)
    (ps : list Payment.t) : Store :=
  {| users := <[1%N := alice]> (<[2%N := provider]> (<[3%N := root]> ∅));
     bookings := {[ 100%N := b ]};
     services := {[ 10%N := plumbing ]};
     payments := ps |}.

(** A card payment for the booking, waiting for its webhook; Stripe's
    reference is the one the webhook route will look for at [t0]. *)
Definition cardPayment : Payment.t :=
  {| Payment.user := 1; Payment.booking := Some 100%N;
     Payment.type := Payment.booking_payment; Payment.amount := 255;
     Payment.method := "stripe"; Payment.status := Payment.pending;
     Payment.transactionId := "pi_demo_1704067200000";
     Payment.metadata := Some (Payment.BookingMeta 5 250);
     Payment.description := "" |}.

Definition call (t : Date) (uid : string) (r : Api.Request) : Api.Call :=
  {| Api.at_ := t; Api.tokenUid := Some uid; Api.freshId := "WD_1";
     Api.request := r |}.

(** Bob is at work on the booking since 90 minutes and 20 seconds. *)
Definition atWork : Store :=
  market bob
    (booking Booking.in_progress (Some (t0 - 90 * 60 * 1000 - 20000)%Z)
       false)
    [].

(** Bob completes, Alice confirms an hour later, and disputes the hour
    after that. *)
Definition confirmedThenDisputed : Store :=
  Api.run
    [ call t0 "uid-bob" (Api.Complete 100 "done" []);
      call (t0 + hour) "uid-alice" (Api.Confirm 100);
      call (t0 + 2 * hour) "uid-alice"
        (Api.Dispute 100 "damage" "the sink leaks" []) ]
    atWork.


(** Bob completes and Alice disputes before confirming. *)
Definition disputedUnconfirmed : Store :=
  Api.run
    [ call t0 "uid-bob" (Api.Complete 100 "done" []);
      call (t0 + hour) "uid-alice"
        (Api.Dispute 100 "damage" "the sink leaks" []) ]
    atWork.

(** The marketplace with [b] EGP in Bob's wallet and the booking still
    pending. *)
Definition funded (b : Q) : Store :=
  market (bobWith b) (booking Booking.pending None false) [].

(** The booking filed under id 100. *)
Definition theBooking (st : Store) : Booking.t :=
  default (booking Booking.pending None false) (bookings st !! 100%N).

(** The admin resolves the dispute three hours after completion. *)
Definition resolve (refundAmount : option Q) : Api.Call :=
  call (t0 + 3 * hour) "uid-root"
    (Api.ResolveDispute 100 "partial refund agreed" refundAmount).

(** The booking completed, with Alice's card payment awaiting its
    webhook. *)
Definition awaitingWebhook : Store :=
  market bob (booking Booking.completed (Some t0) false) [cardPayment].


End Scenario.

(** ** Ledger entries of a resolution *)


(** ** What may happen to a document over time *)

(** A later version [b'] of a booking [b]: the status history has only
    grown at its end, and a confirmation once given is still there. *)
Definition evolves (b b' : Booking.t) : Prop :=
  Booking.statusHistory b `prefix_of` Booking.statusHistory b'
  ∧ (Booking.clientConfirmed (Booking.confirmation b) = true →
     Booking.clientConfirmed (Booking.confirmation b') = true).




Definition totalEarningsOf (u : User.t) : Q :=
  User.totalEarnings (User.walletOf u).

(** Every user of [st] is still in [st'], with lifetime earnings that did
    not go down. *)
Definition earnings_le (st st' : Store) : Prop :=
  ∀ k u, users st !! k = Some u →
    ∃ u', users st' !! k = Some u'
          ∧ (totalEarningsOf u <= totalEarningsOf u')%Q.

(** No stored payment promises a provider a negative amount. *)
Definition payments_nonneg (st : Store) : Prop :=
  Forall (λ p, ∀ a, Payment.metadata p ≫= Payment.providerAmount = Some a →
                    (0 <= a)%Q)
         (payments st).

(** ** The booking state machine, as the routes' guards draw it *)

(** The status changes the routes perform: accept and reject leave
    'pending', start leaves 'accepted', cancel leaves 'pending' or
    'accepted', complete leaves 'in_progress', dispute leaves 'in_progress'
    or 'completed', and the admin's resolution leaves 'disputed'. *)
Definition legal_edge (s s' : Booking.Status) : bool :=
  match s, s' with
  | Booking.pending, Booking.accepted
  | Booking.pending, Booking.rejected
  | Booking.pending, Booking.cancelled
  | Booking.accepted, Booking.in_progress
  | Booking.accepted, Booking.cancelled
  | Booking.in_progress, Booking.completed
  | Booking.in_progress, Booking.disputed
  | Booking.completed, Booking.disputed
  | Booking.disputed, Booking.completed => true
  | _, _ => false
  end.

(** Consecutive statuses are joined by edges of the state machine. *)
Fixpoint chain (l : list Booking.Status) : bool :=
  match l with
  | s :: (s' :: _) as rest => legal_edge s s' && chain rest
  | _ => true
  end.

(** The statuses a booking went through, the current one last: the prior
    statuses its history recorded, then its status. *)
Definition trace (b : Booking.t) : list Booking.Status :=
  (Booking.se_status <$> Booking.statusHistory b) ++ [Booking.status b].

(** What one request may do to a booking, in full: it leaves status and
    history alone or moves along one edge and records the status left; it
    keeps the parties, the schedule and the prices; and it takes back
    neither a confirmation nor a dispute. *)
Record moves (b b' : Booking.t) : Prop := mkMoves {
  moves_status :
    (Booking.status b' = Booking.status b
     ∧ Booking.statusHistory b' = Booking.statusHistory b)
    ∨ (legal_edge (Booking.status b) (Booking.status b') = true
       ∧ ∃ e, Booking.se_status e = Booking.status b
              ∧ Booking.statusHistory b' = Booking.statusHistory b ++ [e]);
  moves_bookingId : Booking.bookingId b' = Booking.bookingId b;
  moves_client : Booking.client b' = Booking.client b;
  moves_provider : Booking.provider b' = Booking.provider b;
  moves_service : Booking.service b' = Booking.service b;
  moves_scheduledDate : Booking.scheduledDate b' = Booking.scheduledDate b;
  moves_pricing : Booking.pricing b' = Booking.pricing b;
  moves_disputed :
    Booking.isDisputed (Booking.dispute b) = true →
    Booking.isDisputed (Booking.dispute b') = true
}.

(** Every booking of [st] is still in [st'], related by [R]. *)
Definition bookings_related (R : Booking.t → Booking.t → Prop)
    (st st' : Store) : Prop :=
  ∀ id b, bookings st !! id = Some b →
    ∃ b', bookings st' !! id = Some b' ∧ R b b'.

(** ** More stores to run the model on *)

Module Cases.


End Cases.

(** ** Ratings: models/User.js and models/Service.js, on the [rating]
       sub-document [{ average, count }] *)

Module Rating.

Record t := mk {
  average : Q;
  count : Z
}.




(** The sum of a list of ratings. *)
Definition total (l : list Q) : Q := foldr Qplus 0%Q l.



End Rating.

(** ** models/Booking.js: the total of a booking *)

(** [x || d] on numbers: [d] when [x] is 0. *)
Definition Number_or (x d : Q) : Q := if Qeq_bool x 0 then d else x.

Module BookingTotal.

(** [bookingSchema.methods.calculateTotal]: the booking with
    [pricing.totalAmount] set, and the value returned. *)
Definition calculateTotal (this : Booking.t) : Booking.t * Q :=
  let servicePrice :=
    Number_or (Booking.servicePrice (Booking.pricing this)) 0 in
  let addOnsPrice :=
    Number_or (Booking.addOnsPrice (Booking.pricing this)) 0 in
  let platformFee :=
    Number_or (Booking.platformFee (Booking.pricing this)) 5 in
  let totalAmount := (servicePrice + addOnsPrice + platformFee)%Q in
  (Booking.mk (Booking.bookingId this) (Booking.client this)
     (Booking.provider this) (Booking.service this)
     (Booking.scheduledDate this)
     {| Booking.servicePrice := Booking.servicePrice (Booking.pricing this);
        Booking.addOnsPrice := Booking.addOnsPrice (Booking.pricing this);
        Booking.platformFee := Booking.platformFee (Booking.pricing this);
        Booking.totalAmount := totalAmount |}
     (Booking.status this) (Booking.statusHistory this)
     (Booking.providerResponse this) (Booking.execution this)
     (Booking.payment this) (Booking.confirmation this)
     (Booking.dispute this) (Booking.cancellation this)
     (Booking.paymentStatus this) (Booking.paidAt this),
   totalAmount).

End BookingTotal.

(** ** routes/bookings.js: creating a booking *)

Module Creation.

Record AddOn := mkAddOn {
  name : string;
  price : Q
}.

(** The service as the route reads it, its provider populated; [None]
    is a provider whose user document is gone. *)
Record Listing := mkListing {
  provider : option User.t;
  amount : Q;
  isActive : bool;
  isApproved : bool
}.

(** [serviceDetails?.addOns?.reduce((total, addon) => total + addon.price,
    0) || 0]; [None] is a body without add-ons. *)
Definition addOnsPrice (addOns : option (list AddOn)) : Q :=
  match addOns with
  | Some l => Number_or (foldl (λ total addon, total + price addon)%Q 0%Q l) 0
  | None => 0
  end.

(** [parseInt(process.env.PLATFORM_FEE) || 5]; [None] is a variable that
    is not set or not a number. *)
Definition platformFee (env : option Z) : Q :=
  match env with
  | Some fee => Number_or (inject_Z fee) 5
  | None => 5
  end.

(** The document [Booking.create] stores, the schema defaults filled in;
    [bookingId] is the code the pre-save hook generated. *)
Definition newBooking (bookingId : string) (client provider service : N)
    (scheduledDate : Z) (pricing : Booking.Pricing) : Booking.t :=
  {| Booking.bookingId := bookingId;
     Booking.client := client;
     Booking.provider := provider;
     Booking.service := service;
     Booking.scheduledDate := scheduledDate;
     Booking.pricing := pricing;
     Booking.status := Booking.pending;
     Booking.statusHistory := [];
     Booking.providerResponse := None;
     Booking.execution :=
       {| Booking.startedAt := None; Booking.completedAt := None;
          Booking.actualDuration := None; Booking.workPhotos := [];
          Booking.completionNotes := "" |};
     Booking.payment :=
       {| Booking.pay_status := Booking.pay_pending;
          Booking.pay_paidAt := None |};
     Booking.confirmation :=
       {| Booking.clientConfirmed := false; Booking.confirmedAt := None;
          Booking.autoConfirmAt := None;
          Booking.confirmationMethod := None |};
     Booking.dispute :=
       {| Booking.isDisputed := false; Booking.disputedBy := None;
          Booking.disputedAt := None; Booking.dis_reason := "";
          Booking.dis_description := ""; Booking.dis_evidence := [];
          Booking.resolution := None |};
     Booking.cancellation := None;
     Booking.paymentStatus := None;
     Booking.paidAt := None |}.

(** [res.status(201).json({ success: true, message })]. *)
Definition created : Response :=
  mkResponse 201 true "Booking created successfully".

(** [POST /api/bookings], behind [authenticateUser]. [valid] is whether
    the body passed the validators, [listing] what
    [Service.findById(serviceId).populate('provider')] returned, [env] the
    configured platform fee, and [newId], [bookingId] the ids the new
    document gets. The booking counter that [service.incrementBooking()]
    raises is not part of the service record here. *)
Definition create (user : User.t) (valid : bool) (serviceId : N)
    (listing : option Listing) (scheduledDate : Z)
    (addOns : option (list AddOn)) (env : option Z) (newId : N)
    (bookingId : string) (st : Store) : Response * Store :=
  if negb valid then (fail 400 "Validation errors", st)
  else if negb (bool_decide (User.role user = User.client)) then
    (fail 403 "Only clients can create bookings", st)
  else
    match listing with
    | None => (fail 404 "Service not found or not available", st)
    | Some service =>
        if negb (isActive service) || negb (isApproved service) then
          (fail 404 "Service not found or not available", st)
        else
          match provider service with
          | None => (serverError, st)
          | Some provider =>
              if negb (User.isProviderActivated provider) then
                (fail 400 "Provider is not activated", st)
              else
                let servicePrice := amount service in
                let addOnsPrice := addOnsPrice addOns in
                let platformFee := platformFee env in
                let totalAmount :=
                  (servicePrice + addOnsPrice + platformFee)%Q in
                let booking :=
                  newBooking bookingId (User._id user) (User._id provider)
                    serviceId scheduledDate
                    {| Booking.servicePrice := servicePrice;
                       Booking.addOnsPrice := addOnsPrice;
                       Booking.platformFee := platformFee;
                       Booking.totalAmount := totalAmount |} in
                (created, saveBooking newId booking st)
          end
    end.

End Creation.

(** ** routes/users.js and routes/admin.js: switching accounts off and on *)

Module Users.

Definition set_isActive (a : bool) (u : User.t) : User.t :=
  {| User._id := User._id u;
     User.firebaseUid := User.firebaseUid u;
     User.role := User.role u;
     User.isActive := a;
     User.providerInfo := User.providerInfo u |}.

(** [DELETE /api/users/:id], behind [requireRole('admin')]: a soft
    delete. *)
Definition deleteUser (reqUser : User.t) (id : N) (st : Store)
  : Response * Store :=
  match Auth.requireRole User.admin reqUser with
  | Some r => (r, st)
  | None =>
      match users st !! id with
      | None => (fail 404 "User not found", st)
      | Some user =>
          (ok "User deactivated successfully",
           saveUser id (set_isActive false user) st)
      end
  end.

Inductive Action :=
  activate | deactivate | verify | unverify | feature | unfeature.

Definition actionName (a : Action) : string :=
  match a with
  | activate => "activate" | deactivate => "deactivate"
  | verify => "verify" | unverify => "unverify"
  | feature => "feature" | unfeature => "unfeature"
  end.

(** [PUT /api/admin/users/:id/manage], behind the router's
    [requireRole('admin')]; [None] is an action the validator does not
    know. 'verify' and 'feature' write flags the user record here does not
    carry: they save the document as it is. *)
Definition manage (reqUser : User.t) (id : N) (action : option Action)
    (st : Store) : Response * Store :=
  match Auth.requireRole User.admin reqUser with
  | Some r => (r, st)
  | None =>
      match action with
      | None => (fail 400 "Validation errors", st)
      | Some action =>
          match users st !! id with
          | None => (fail 404 "User not found", st)
          | Some user =>
              let user :=
                match action with
                | activate => set_isActive true user
                | deactivate => set_isActive false user
                | _ => user
                end in
              (ok ("User " +:+ actionName action +:+ "d successfully"),
               saveUser id user st)
          end
      end
  end.

(** The schema's [unique] on [firebaseUid]. *)
Definition unique_uids (st : Store) : Prop :=
  ∀ k1 u1 k2 u2,
    users st !! k1 = Some u1 → users st !! k2 = Some u2 →
    User.firebaseUid u1 = User.firebaseUid u2 → k1 = k2.


End Users.

(** ** Provider activation: routes/auth.js and routes/payments.js *)

Module Activation.

Definition set_activation (activated paid : bool) (u : User.t) : User.t :=
  {| User._id := User._id u;
     User.firebaseUid := User.firebaseUid u;
     User.role := User.role u;
     User.isActive := User.isActive u;
     User.providerInfo :=
       {| User.isActivated := activated;
          User.activationFeePaid := paid;
          User.wallet := User.wallet (User.providerInfo u) |} |}.

Definition paid : Response :=
  ok ("Activation fee paid successfully. "
      +:+ "Your provider account is now activated!").


(** What the payment service answered: whether it took the payment, and
    the reference it gave ([transactionId], [paymentIntentId] or
    [orderId]). *)
Record PaymentResult := mkPaymentResult {
  pr_success : bool;
  pr_reference : string
}.

Definition localMethods : list string :=
  ["vodafone_cash"; "etisalat_cash"; "orange_money"; "we_pay"].

(** [POST /api/payments/activation-fee]. [reqUser] is [req.user],
    [userId] what the route reads as [req.user.uid], [valid] whether the
    body passed the validators, and [paymentResult] the answer of the
    payment service the method selects. *)
Definition activationFee (reqUser : User.t) (userId : string) (valid : bool)
    (paymentMethod : string) (paymentResult : PaymentResult) (st : Store)
  : Response * Store :=
  match Auth.requireRole User.provider reqUser with
  | Some r => (r, st)
  | None =>
      if negb valid then (fail 400 "Validation failed", st)
      else
      match findUserByFirebaseUid userId st with
      | None => (fail 403 "Only providers can pay activation fee", st)
      | Some (key, user) =>
          if negb (bool_decide (User.role user = User.provider)) then
            (fail 403 "Only providers can pay activation fee", st)
          else if User.isActivated (User.providerInfo user) then
            (fail 400 "Provider account is already activated", st)
          else if negb (bool_decide (paymentMethod = "stripe"))
                  && negb (bool_decide (paymentMethod ∈ localMethods))
                  && negb (bool_decide (paymentMethod = "paypal")) then
            (fail 400 "Unsupported payment method", st)
          else if negb (pr_success paymentResult) then
            (fail 400 "Payment processing failed", st)
          else
            let activationFee := 20%Q in
            let st :=
              createPayment
                {| Payment.user := User._id user;
                   Payment.booking := None;
                   Payment.type := Payment.activation_fee;
                   Payment.amount := activationFee;
                   Payment.method := paymentMethod;
                   Payment.status :=
                     if bool_decide (paymentMethod = "stripe")
                     then Payment.pending else Payment.completed;
                   Payment.transactionId := pr_reference paymentResult;
                   Payment.metadata := None;
                   Payment.description := "" |} st in
            let st :=
              if pr_success paymentResult
                 && negb (bool_decide (paymentMethod = "stripe"))
                 && negb (bool_decide (paymentMethod = "paypal")) then
                saveUser key
                  (set_activation true
                     (User.activationFeePaid (User.providerInfo user)) user)
                  st
              else st in
            (ok "", st)
      end
  end.

End Activation.

(** ** What a request leaves of an account *)

(** The part of a user no booking or payment route writes: who it is,
    what it may do, and whether it is switched on. *)
Definition account (u : User.t)
  : N * string * User.Role * bool * bool * bool :=
  (User._id u, User.firebaseUid u, User.role u, User.isActive u,
   User.isActivated (User.providerInfo u),
   User.activationFeePaid (User.providerInfo u)).

Definition accounts (st : Store)
  : gmap N (N * string * User.Role * bool * bool * bool) :=
  account <$> users st.

(** ** Stores for the activation routes *)

Module Newcomers.

(** Bob before he paid anything. *)
Definition bob : User.t := Activation.set_activation false false Scenario.bob.

(** The marketplace with Bob not yet activated. *)
Definition unactivated : Store :=
  Scenario.market bob (Scenario.booking Booking.pending None false) [].

End Newcomers.

(** * Properties *)

(** ** Number primitives *)

Lemma Number_lt_true (a b : Q) : Number_lt a b = true ↔ (a < b)%Q.
Proof.
  unfold Number_lt. rewrite negb_true_iff, <- not_true_iff_false, Qle_bool_iff.
  split; [apply Qnot_le_lt | apply Qlt_not_le].
Qed.

Lemma Number_lt_false (a b : Q) : Number_lt a b = false ↔ (b <= a)%Q.
Proof.
  unfold Number_lt. rewrite negb_false_iff. apply Qle_bool_iff.
Qed.

Lemma Math_max_ge_l (a b : Q) : (a <= Math_max a b)%Q.
Proof.
  unfold Math_max. destruct (Number_lt a b) eqn:E.
  - apply Number_lt_true in E. lra.
  - lra.
Qed.

Lemma Math_max_ge_r (a b : Q) : (b <= Math_max a b)%Q.
Proof.
  unfold Math_max. destruct (Number_lt a b) eqn:E.
  - lra.
  - apply Number_lt_false in E. lra.
Qed.

(** The withdrawal fee is 2 % of the amount and never below 2 EGP. *)
Lemma withdrawal_fee_spec (amount : Q) :
  let fee :=
    PaymentService.calculatePlatformFee amount PaymentService.withdrawal in
  (2 <= fee ∧ amount * 0.02 <= fee ∧ (fee == 2 ∨ fee == amount * 0.02))%Q.
Proof.
  cbn. split; [apply Math_max_ge_r | split; [apply Math_max_ge_l |]].
  unfold Math_max. destruct (Number_lt _ _); [left | right]; reflexivity.
Qed.

(** More than two hours, in the units [canBeCancelled] computes with. *)
Lemma hoursDifference_gt_2 (d : Z) :
  Number_gt (inject_Z d / (1000 * 60 * 60))%Q 2 = true
  ↔ (2 * 60 * 60 * 1000 < d)%Z.
Proof.
  unfold Number_gt. rewrite Number_lt_true.
  change (1000 * 60 * 60)%Q with (3600000 # 1)%Q.
  unfold Qlt, Qdiv, Qmult, Qinv, inject_Z. cbn. lia.
Qed.

(** ** Wallet methods *)

Section WalletMethods.

Variable this : User.t.
Variable amount : Q.

Lemma addEarnings_provider :
  User.role this = User.provider →
  User.walletOf (User.addEarnings this amount)
  = {| User.balance := User.balance (User.walletOf this) + amount;
       User.pendingBalance := User.pendingBalance (User.walletOf this);
       User.totalEarnings :=
         User.totalEarnings (User.walletOf this) + amount |}.
Proof. intros H. unfold User.addEarnings. by rewrite decide_True. Qed.



Lemma addPendingEarnings_totalEarnings :
  User.totalEarnings (User.walletOf (User.addPendingEarnings this amount))
  = User.totalEarnings (User.walletOf this).
Proof. unfold User.addPendingEarnings. by case_decide. Qed.

Lemma confirmEarnings_totalEarnings :
  User.totalEarnings (User.walletOf (User.confirmEarnings this amount))
  = User.totalEarnings (User.walletOf this).
Proof. unfold User.confirmEarnings. by case_decide. Qed.

Lemma addEarnings_totalEarnings :
  (0 <= amount)%Q →
  (User.totalEarnings (User.walletOf this)
   <= User.totalEarnings (User.walletOf (User.addEarnings this amount)))%Q.
Proof. intros H. unfold User.addEarnings. case_decide; cbn; lra. Qed.

End WalletMethods.

(** C10. On a user whose role is not 'provider', addEarnings,
    addPendingEarnings and confirmEarnings change nothing, whatever the
    amount: the user document, and with it balance, pendingBalance and
    totalEarnings, is returned as it was. *)
Theorem wallet_methods_noop_for_non_provider (u : User.t) (amount : Q) :
  User.role u ≠ User.provider →
  User.addEarnings u amount = u
  ∧ User.addPendingEarnings u amount = u
  ∧ User.confirmEarnings u amount = u.
Proof.
  intros H.
  unfold User.addEarnings, User.addPendingEarnings, User.confirmEarnings.
  by rewrite !decide_False.
Qed.

Lemma wallet_methods_noop_for_non_provider_witness :
  User.role Scenario.alice ≠ User.provider
  ∧ User.addEarnings Scenario.alice 250 = Scenario.alice
  ∧ User.addPendingEarnings Scenario.alice 250 = Scenario.alice
  ∧ User.confirmEarnings Scenario.alice 250 = Scenario.alice.
Proof.
  split; [discriminate |].
  apply (wallet_methods_noop_for_non_provider Scenario.alice 250).
  discriminate.
Defined.

(** C6. canBeCancelled() is true exactly when the status is 'pending' or
    'accepted' and the scheduled date lies strictly more than two hours
    (7 200 000 ms) after now; at exactly two hours, and in every other
    status, it is false. *)
Theorem canBeCancelled_iff (now : Z) (b : Booking.t) :
  (Booking.canBeCancelled now b = true
   ↔ (Booking.status b = Booking.pending
      ∨ Booking.status b = Booking.accepted)
     ∧ (2 * 60 * 60 * 1000 < Booking.scheduledDate b - now)%Z)
  ∧ (Booking.canBeCancelled (Booking.scheduledDate b - 2 * 60 * 60 * 1000) b
     = false).
Proof.
  unfold Booking.canBeCancelled, Date_diff. split.
  - rewrite andb_true_iff, orb_true_iff, !bool_decide_eq_true.
    by rewrite hoursDifference_gt_2.
  - apply andb_false_iff. right. apply not_true_iff_false.
    rewrite hoursDifference_gt_2. lia.
Qed.

(** ** updateStatus *)

Section UpdateStatus.

Variables (now : Z) (newStatus : Booking.Status) (updatedBy : N)
          (reason : string) (this : Booking.t).

Let this' := Booking.updateStatus now newStatus updatedBy reason this.


Lemma updateStatus_statusHistory :
  Booking.statusHistory this'
  = Booking.statusHistory this
    ++ [ {| Booking.se_status := Booking.status this;
            Booking.se_timestamp := now;
            Booking.se_updatedBy := updatedBy;
            Booking.se_reason := reason |} ].
Proof. subst this'. unfold Booking.updateStatus. by case_decide. Qed.

Lemma updateStatus_clientConfirmed :
  Booking.clientConfirmed (Booking.confirmation this')
  = Booking.clientConfirmed (Booking.confirmation this).
Proof. subst this'. unfold Booking.updateStatus. by case_decide. Qed.



Lemma updateStatus_provider :
  Booking.provider this' = Booking.provider this.
Proof. subst this'. unfold Booking.updateStatus. by case_decide. Qed.




Lemma updateStatus_startedAt :
  Booking.startedAt (Booking.execution this')
  = Booking.startedAt (Booking.execution this).
Proof. subst this'. unfold Booking.updateStatus. by case_decide. Qed.


Lemma updateStatus_evolves : evolves this this'.
Proof.
  split.
  - rewrite updateStatus_statusHistory. by apply prefix_app_r.
  - by rewrite updateStatus_clientConfirmed.
Qed.

End UpdateStatus.

(** ** Stores over time *)











Lemma earnings_le_refl st : earnings_le st st.
Proof. intros k u H. exists u. split; [done | apply Qle_refl]. Qed.

Lemma earnings_le_trans st1 st2 st3 :
  earnings_le st1 st2 → earnings_le st2 st3 → earnings_le st1 st3.
Proof.
  intros H12 H23 k u H. destruct (H12 _ _ H) as (u2 & H2 & E2).
  destruct (H23 _ _ H2) as (u3 & H3 & E3). exists u3.
  split; [done | by eapply Qle_trans].
Qed.

Lemma earnings_le_same st st' : users st' = users st → earnings_le st st'.
Proof. intros E k u H. exists u. rewrite E. split; [done | apply Qle_refl]. Qed.

Lemma earnings_le_save st st' k u u' :
  users st' = <[k := u']> (users st) →
  users st !! k = Some u →
  (totalEarningsOf u <= totalEarningsOf u')%Q →
  earnings_le st st'.
Proof.
  intros E Hu Hle k0 u0 H0. rewrite E.
  destruct (decide (k = k0)) as [<- | Hne].
  - rewrite lookup_insert_eq. exists u'. split; [done |]. congruence.
  - rewrite lookup_insert_ne by done. exists u0.
    split; [done | apply Qle_refl].
Qed.

(** Unfold a route down to its leaves: one goal per way through it. *)
Ltac route_cases :=
  unfold Bookings.accept, Bookings.reject, Bookings.start, Bookings.complete,
    Bookings.confirm, Bookings.cancel, Bookings.dispute,
    Admin.resolveDispute, Payments.withdraw, Payments.stripeWebhook,
    Payments.handleStripeEvent, Bookings.withBooking;
  repeat case_match; simplify_eq/=.














Lemma run_cons c cs st : Api.run (c :: cs) st = Api.run cs (Api.dispatch c st).2.
Proof. done. Qed.


(** ** Status history (C8) *)



(** ** Confirmation happens once (C1) *)

Lemma requireBookingAccess_denied user b r :
  Auth.requireBookingAccess user b = inl r → r = fail 403 "Access denied".
Proof. unfold Auth.requireBookingAccess. repeat case_match; congruence. Qed.






(** On every other path of [confirm] nothing is written. *)
Lemma confirm_otherwise now user id st :
  (Bookings.confirm now user id st).1 ≠ Api.confirmed →
  (Bookings.confirm now user id st).2 = st.
Proof. route_cases; done. Qed.






(** ** Completing a booking (C4) *)




(** The duration in the scenario: 90 minutes and 20 seconds round to 90. *)
Example complete_duration_example :
  Math_round
    (inject_Z (Scenario.t0 - (Scenario.t0 - 90 * 60 * 1000 - 20000))
     / (1000 * 60))%Q
  = 90%Z.
Proof. reflexivity. Qed.

(** ** Withdrawals (C5) *)

Lemma withdrawal_fee_100 :
  (PaymentService.calculatePlatformFee 100 PaymentService.withdrawal == 2)%Q.
Proof. reflexivity. Qed.



(** The example of the specification: 100 EGP cost a fee of 2; a balance
    of 101 is not enough, a balance of 102 is, and leaves 0. *)
Example withdraw_100_of_101 :
  Payments.withdraw "WD_1" (Scenario.bobWith 101) "uid-bob" 100
    "bank_transfer" (Scenario.funded 101)
  = (fail 400 "Insufficient balance", Scenario.funded 101).
Proof. by vm_compute. Qed.

Example withdraw_100_of_102 :
  ∃ user',
    Payments.withdraw "WD_1" (Scenario.bobWith 102) "uid-bob" 100
      "bank_transfer" (Scenario.funded 102)
    = (ok "",
       saveUser 2 user'
         (createPayment
            {| Payment.user := 2; Payment.booking := None;
               Payment.type := Payment.withdrawal; Payment.amount := - 100;
               Payment.method := "bank_transfer";
               Payment.status := Payment.processing;
               Payment.transactionId := "WD_1";
               Payment.metadata :=
                 Some (Payment.WithdrawalMeta
                         (PaymentService.calculatePlatformFee 100
                            PaymentService.withdrawal));
               Payment.description := "" |}
            (Scenario.funded 102)))
    ∧ (User.balance (User.walletOf user') == 0)%Q.
Proof. eexists. split; [by vm_compute | by vm_compute]. Qed.


(** ** Who may do what (C7) *)






(** ** Dispute resolution (C3) *)





(** After that resolution the client's own confirm call goes through as
    well, and moves the earnings. *)
Example resolved_then_confirmed :
  Api.replies
    [ Scenario.resolve None;
      Scenario.call (Scenario.t0 + 4 * Scenario.hour) "uid-alice"
        (Api.Confirm 100) ]
    Scenario.disputedUnconfirmed
  = [ ok "Dispute resolved successfully"; Api.confirmed ]
  ∧ Api.confirmEarningsCalls 100
      [ Scenario.resolve None;
        Scenario.call (Scenario.t0 + 4 * Scenario.hour) "uid-alice"
          (Api.Confirm 100) ]
      Scenario.disputedUnconfirmed = 1.
Proof. by vm_compute. Qed.

(** ** The Stripe webhook (C2) *)

(** The webhook credits the provider whatever the status of the payment
    it finds: nothing in the route looks at [payment.status]. *)
Lemma handleStripeEvent_credits now event st i p bid b a u :
  Payments.ev_type event = "payment_intent.succeeded" →
  findPaymentByTransactionId (Payments.ev_id event) st = Some (i, p) →
  Payment.type p = Payment.booking_payment →
  Payment.booking p = Some bid →
  bookings st !! bid = Some b →
  Payment.metadata p ≫= Payment.providerAmount = Some a →
  users st !! Booking.provider b = Some u →
  Payments.handleStripeEvent now event st
  = (Payments.received,
     saveUser (Booking.provider b) (Payments.creditWallet u a)
       (saveBooking bid (Booking.set_paid now b)
          (savePayment i (Payment.set_status Payment.completed p) st))).
Proof.
  intros Hty Hfind Htype Hbk Hb Hmeta Hu. unfold Payments.handleStripeEvent.
  rewrite (bool_decide_eq_true_2 _ Hty), Hfind. cbn.
  rewrite (bool_decide_eq_true_2 _ Htype), Hbk, Hb, Hmeta. cbn.
  by rewrite Hu.
Qed.


(** ** Lifetime earnings never go down (C9) *)

Lemma totalEarningsOf_addPendingEarnings u a :
  totalEarningsOf (User.addPendingEarnings u a) = totalEarningsOf u.
Proof. apply addPendingEarnings_totalEarnings. Qed.

Lemma totalEarningsOf_confirmEarnings u a :
  totalEarningsOf (User.confirmEarnings u a) = totalEarningsOf u.
Proof. apply confirmEarnings_totalEarnings. Qed.

Lemma totalEarningsOf_debitWallet u a :
  totalEarningsOf (Payments.debitWallet u a) = totalEarningsOf u.
Proof. done. Qed.

Lemma totalEarningsOf_creditWallet u a :
  totalEarningsOf (Payments.creditWallet u a) = (totalEarningsOf u + a)%Q.
Proof. done. Qed.

Ltac solve_earnings_le :=
  first
    [ apply earnings_le_refl
    | by apply earnings_le_same
    | eapply earnings_le_save;
      [ done
      | eassumption
      | rewrite ?totalEarningsOf_addPendingEarnings,
          ?totalEarningsOf_confirmEarnings, ?totalEarningsOf_debitWallet;
        apply Qle_refl ] ].

Lemma accept_earnings_le now user id msg st :
  earnings_le st (Bookings.accept now user id msg st).2.
Proof. route_cases; solve_earnings_le. Qed.

Lemma reject_earnings_le now user id reason st :
  earnings_le st (Bookings.reject now user id reason st).2.
Proof. route_cases; solve_earnings_le. Qed.

Lemma start_earnings_le now user id st :
  earnings_le st (Bookings.start now user id st).2.
Proof. route_cases; solve_earnings_le. Qed.

Lemma complete_earnings_le now user id notes photos st :
  earnings_le st (Bookings.complete now user id notes photos st).2.
Proof.
  route_cases; rewrite ?updateStatus_provider in *; solve_earnings_le.
Qed.

Lemma confirm_earnings_le now user id st :
  earnings_le st (Bookings.confirm now user id st).2.
Proof. route_cases; solve_earnings_le. Qed.

Lemma cancel_earnings_le now user id reason st :
  earnings_le st (Bookings.cancel now user id reason st).2.
Proof. route_cases; solve_earnings_le. Qed.

Lemma dispute_earnings_le now user id reason description evidence st :
  earnings_le st
    (Bookings.dispute now user id reason description evidence st).2.
Proof. route_cases; solve_earnings_le. Qed.

Lemma resolveDispute_earnings_le now user id resolution refundAmount st :
  earnings_le st
    (Admin.resolveDispute now user id resolution refundAmount st).2.
Proof. route_cases; solve_earnings_le. Qed.

Lemma findUserByFirebaseUid_lookup uid st key user :
  findUserByFirebaseUid uid st = Some (key, user) →
  users st !! key = Some user.
Proof.
  unfold findUserByFirebaseUid. intros H.
  apply fmap_Some in H as ([i [k u]] & Hfind & [= -> ->]).
  apply list_find_Some in Hfind as (Hl & _).
  apply list_elem_of_lookup_2, elem_of_map_to_list in Hl. done.
Qed.

Lemma withdraw_earnings_le freshId reqUser userId amount method st :
  earnings_le st
    (Payments.withdraw freshId reqUser userId amount method st).2.
Proof.
  route_cases; try solve_earnings_le.
  eapply earnings_le_save;
    [done | by eapply findUserByFirebaseUid_lookup | apply Qle_refl].
Qed.

Lemma handleStripeEvent_earnings_le now event st :
  payments_nonneg st →
  earnings_le st (Payments.handleStripeEvent now event st).2.
Proof.
  intros Hnn. route_cases; try solve_earnings_le.
  eapply earnings_le_save; [done | eassumption |].
  rewrite totalEarningsOf_creditWallet.
  match goal with
  | Hfind : findPaymentByTransactionId _ _ = Some (?i, ?p) |- _ =>
      apply list_find_Some in Hfind as (Hl & _);
      pose proof (Forall_lookup_1 _ _ _ _ Hnn Hl) as Ha
  end.
  match goal with
  | Hm : _ ≫= Payment.providerAmount = Some ?a |- _ =>
      specialize (Ha a Hm)
  end.
  lra.
Qed.

Lemma handleStripeEvent_payments_nonneg now event st :
  payments_nonneg st →
  payments_nonneg (Payments.handleStripeEvent now event st).2.
Proof.
  intros Hnn. route_cases; try done;
    match goal with
    | Hfind : findPaymentByTransactionId _ _ = Some (?i, ?p) |- _ =>
        apply list_find_Some in Hfind as (Hl & _);
        pose proof (Forall_lookup_1 _ _ _ _ Hnn Hl) as Ha
    end;
    by apply Forall_insert.
Qed.

Lemma dispatch_payments_nonneg c st :
  payments_nonneg st → payments_nonneg (Api.dispatch c st).2.
Proof.
  intros Hnn. unfold Api.dispatch.
  destruct (Api.request c); try destruct (Auth.authenticateUser _ _);
    cbn [snd]; try done;
    try (by apply handleStripeEvent_payments_nonneg);
    route_cases; try done;
    unfold payments_nonneg; cbn; apply Forall_app; split; try done;
    by apply Forall_singleton.
Qed.

Lemma dispatch_earnings_le c st :
  payments_nonneg st → earnings_le st (Api.dispatch c st).2.
Proof.
  intros Hnn. unfold Api.dispatch.
  destruct (Api.request c); try destruct (Auth.authenticateUser _ _);
    cbn [snd];
    eauto using earnings_le_refl, accept_earnings_le, reject_earnings_le,
      start_earnings_le, complete_earnings_le, confirm_earnings_le,
      cancel_earnings_le, dispute_earnings_le, resolveDispute_earnings_le,
      withdraw_earnings_le, handleStripeEvent_earnings_le.
Qed.

Lemma run_earnings_le cs : ∀ st,
  payments_nonneg st → earnings_le st (Api.run cs st).
Proof.
  induction cs as [| c cs IH]; intros st Hnn; [apply earnings_le_refl |].
  rewrite run_cons. eapply earnings_le_trans.
  - by apply dispatch_earnings_le.
  - by apply IH, dispatch_payments_nonneg.
Qed.

(** C9. totalEarnings never decreases. Called with an amount that is not
    negative, addEarnings and the wallet credit of the payment routes raise
    it by the amount; addPendingEarnings, confirmEarnings and the
    withdrawal deduction leave it as it is. For the API as a whole: if no
    stored payment carries a negative provider amount, then after any
    sequence of requests every user is still there with a totalEarnings at
    least as high as before. *)
Theorem totalEarnings_monotone (u : User.t) (amount : Q)
    (cs : list Api.Call) (st : Store) :
  (0 <= amount)%Q →
  payments_nonneg st →
  (totalEarningsOf u <= totalEarningsOf (User.addEarnings u amount))%Q
  ∧ totalEarningsOf (User.addPendingEarnings u amount) = totalEarningsOf u
  ∧ totalEarningsOf (User.confirmEarnings u amount) = totalEarningsOf u
  ∧ (totalEarningsOf u
     <= totalEarningsOf (Payments.creditWallet u amount))%Q
  ∧ totalEarningsOf (Payments.debitWallet u amount) = totalEarningsOf u
  ∧ (∀ k v, users st !! k = Some v →
       ∃ v', users (Api.run cs st) !! k = Some v'
             ∧ (totalEarningsOf v <= totalEarningsOf v')%Q).
Proof.
  intros Hamount Hnn.
  split; [by apply addEarnings_totalEarnings |].
  split; [apply totalEarningsOf_addPendingEarnings |].
  split; [apply totalEarningsOf_confirmEarnings |].
  split; [rewrite totalEarningsOf_creditWallet; lra |].
  split; [apply totalEarningsOf_debitWallet |].
  by apply run_earnings_le.
Qed.

Lemma totalEarnings_monotone_witness :
  (0 <= 250)%Q
  ∧ payments_nonneg Scenario.awaitingWebhook
  ∧ (totalEarningsOf Scenario.bob
     <= totalEarningsOf (User.addEarnings Scenario.bob 250))%Q
  ∧ ∃ v',
      users
        (Api.run
           [ Scenario.call Scenario.t0 "" Api.StripeWebhook;
             Scenario.call (Scenario.t0 + Scenario.hour) "uid-alice"
               (Api.Confirm 100) ]
           Scenario.awaitingWebhook) !! 2%N = Some v'
      ∧ (totalEarningsOf Scenario.bob <= totalEarningsOf v')%Q.
Proof.
  assert (Hnn : payments_nonneg Scenario.awaitingWebhook).
  { apply Forall_singleton. intros a [= <-]. discriminate. }
  split; [discriminate |]. split; [exact Hnn |].
  destruct (totalEarnings_monotone Scenario.bob 250
              [ Scenario.call Scenario.t0 "" Api.StripeWebhook;
                Scenario.call (Scenario.t0 + Scenario.hour) "uid-alice"
                  (Api.Confirm 100) ]
              Scenario.awaitingWebhook)
    as (Hadd & _ & _ & _ & _ & Hrun); [discriminate | exact Hnn |].
  split; [exact Hadd |]. apply (Hrun 2%N Scenario.bob). reflexivity.
Defined.

(** * Further properties of the routes *)

(** ** One request, one edge *)

Lemma moves_refl b : moves b b.
Proof. split; auto. Qed.

Lemma bookings_related_refl R st :
  (∀ b, R b b) → bookings_related R st st.
Proof. intros HR id b H. exists b. auto. Qed.

Lemma bookings_related_same R st st' :
  (∀ b, R b b) → bookings st' = bookings st → bookings_related R st st'.
Proof. intros HR E id b H. exists b. rewrite E. auto. Qed.

Lemma bookings_related_save R st st' id b b' :
  (∀ b, R b b) →
  bookings st' = bookings st →
  bookings st !! id = Some b → R b b' →
  bookings_related R st (saveBooking id b' st').
Proof.
  intros HR E Hb Hev id0 b0 H0. cbn. rewrite E.
  destruct (decide (id = id0)) as [<- | Hne].
  - rewrite lookup_insert_eq. exists b'. split; [done |]. congruence.
  - rewrite lookup_insert_ne by done. exists b0. auto.
Qed.

Lemma canBeCancelled_status now b :
  Booking.canBeCancelled now b = true →
  Booking.status b = Booking.pending ∨ Booking.status b = Booking.accepted.
Proof.
  unfold Booking.canBeCancelled.
  rewrite andb_true_iff, orb_true_iff, !bool_decide_eq_true. tauto.
Qed.

(** Turn the guards a route passed into facts about the status. *)
Ltac guard_facts :=
  repeat match goal with
  | H : negb (bool_decide _) = false |- _ =>
      apply negb_false_iff, bool_decide_eq_true in H
  | H : negb (Booking.canBeCancelled _ _) = false |- _ =>
      apply negb_false_iff, canBeCancelled_status in H
  | H : negb (bool_decide _ || bool_decide _) = false |- _ =>
      apply negb_false_iff, orb_true_iff in H;
      rewrite !bool_decide_eq_true in H
  end.

Ltac solve_moves :=
  guard_facts;
  split; cbn;
  try first [ done | by intros _ ];
  first
    [ by left
    | right; split;
      [ repeat match goal with
               | H : Booking.status _ = _ |- _ => rewrite H
               | H : _ ∨ _ |- _ => destruct H
               end; reflexivity
      | eexists; split; [| reflexivity]; reflexivity ] ].

Ltac solve_bookings_moves :=
  first
    [ apply (bookings_related_refl moves), moves_refl
    | by apply (bookings_related_same moves); [apply moves_refl |]
    | eapply (bookings_related_save moves);
      [ apply moves_refl | done | eassumption | solve_moves ] ].

Lemma accept_moves now user id msg st :
  bookings_related moves st (Bookings.accept now user id msg st).2.
Proof. route_cases; solve_bookings_moves. Qed.

Lemma reject_moves now user id reason st :
  bookings_related moves st (Bookings.reject now user id reason st).2.
Proof. route_cases; solve_bookings_moves. Qed.

Lemma start_moves now user id st :
  bookings_related moves st (Bookings.start now user id st).2.
Proof. route_cases; solve_bookings_moves. Qed.

Lemma complete_moves now user id notes photos st :
  bookings_related moves st
    (Bookings.complete now user id notes photos st).2.
Proof. route_cases; solve_bookings_moves. Qed.

Lemma confirm_moves now user id st :
  bookings_related moves st (Bookings.confirm now user id st).2.
Proof. route_cases; solve_bookings_moves. Qed.

Lemma cancel_moves now user id reason st :
  bookings_related moves st (Bookings.cancel now user id reason st).2.
Proof. route_cases; solve_bookings_moves. Qed.

Lemma dispute_moves now user id reason description evidence st :
  bookings_related moves st
    (Bookings.dispute now user id reason description evidence st).2.
Proof. route_cases; solve_bookings_moves. Qed.

Lemma resolveDispute_moves now user id resolution refundAmount st :
  bookings_related moves st
    (Admin.resolveDispute now user id resolution refundAmount st).2.
Proof. route_cases; solve_bookings_moves. Qed.

Lemma withdraw_moves freshId reqUser userId amount method st :
  bookings_related moves st
    (Payments.withdraw freshId reqUser userId amount method st).2.
Proof. route_cases; solve_bookings_moves. Qed.

Lemma handleStripeEvent_moves now event st :
  bookings_related moves st (Payments.handleStripeEvent now event st).2.
Proof. route_cases; solve_bookings_moves. Qed.

Lemma bookings_moves_refl st : bookings_related moves st st.
Proof. apply bookings_related_refl, moves_refl. Qed.

Lemma dispatch_moves c st : bookings_related moves st (Api.dispatch c st).2.
Proof.
  unfold Api.dispatch.
  destruct (Api.request c); try destruct (Auth.authenticateUser _ _);
    cbn [snd];
    eauto using bookings_moves_refl, accept_moves,
      reject_moves, start_moves, complete_moves, confirm_moves, cancel_moves,
      dispute_moves, resolveDispute_moves, withdraw_moves,
      handleStripeEvent_moves.
Qed.

(** What every booking keeps over a sequence of requests, if one request
    keeps it. *)
Lemma run_invariant (P : Booking.t → Prop) :
  (∀ b b', moves b b' → P b → P b') →
  ∀ cs st id b,
    bookings st !! id = Some b → P b →
    ∃ b', bookings (Api.run cs st) !! id = Some b' ∧ P b'.
Proof.
  intros HP cs. induction cs as [| c cs IH]; intros st id b Hb Hp.
  - exists b. auto.
  - rewrite run_cons.
    destruct (dispatch_moves c st _ _ Hb) as (b1 & Hb1 & Hm).
    eapply IH; eauto.
Qed.

Lemma chain_snoc l s s' :
  chain (l ++ [s]) = true → legal_edge s s' = true →
  chain (l ++ [s; s']) = true.
Proof.
  induction l as [| a [| a' l] IH]; cbn; intros Hc He.
  - by rewrite He.
  - apply andb_true_iff in Hc as [-> _]. by rewrite He.
  - apply andb_true_iff in Hc as [-> Hc]. cbn. by apply IH.
Qed.

Lemma moves_trace b b' :
  moves b b' → chain (trace b) = true → chain (trace b') = true.
Proof.
  intros [[[Es Eh] | (He & e & Ee & Eh)] _ _ _ _ _ _ _]; unfold trace;
    rewrite Eh.
  - by rewrite Es.
  - intros Hc. rewrite fmap_app, <- app_assoc. cbn. rewrite Ee.
    by apply chain_snoc.
Qed.

(** X1. Every request moves a booking along at most one edge of the state
    machine and records the status it left, so the statuses a booking went
    through - those in its history, then its current one - always form a
    path: pending to accepted, rejected or cancelled; accepted to
    in_progress or cancelled; in_progress to completed or disputed;
    completed to disputed; disputed back to completed. *)
Theorem status_trace_is_a_path (cs : list Api.Call) (st : Store) (id : N)
    (b : Booking.t) :
  bookings st !! id = Some b →
  chain (trace b) = true →
  (∀ c, ∃ b1,
     bookings (Api.dispatch c st).2 !! id = Some b1
     ∧ ((Booking.status b1 = Booking.status b
         ∧ Booking.statusHistory b1 = Booking.statusHistory b)
        ∨ (legal_edge (Booking.status b) (Booking.status b1) = true
           ∧ ∃ e, Booking.se_status e = Booking.status b
                  ∧ Booking.statusHistory b1
                    = Booking.statusHistory b ++ [e])))
  ∧ ∃ b', bookings (Api.run cs st) !! id = Some b'
          ∧ chain (trace b') = true.
Proof.
  intros Hb Hc. split.
  - intros c. destruct (dispatch_moves c st _ _ Hb) as (b1 & Hb1 & [Hm]).
    by exists b1.
  - by apply (run_invariant (λ b, chain (trace b) = true) moves_trace cs st id b).
Qed.

(** X2. 'rejected' and 'cancelled' are final: whatever requests follow, a
    booking in one of them keeps its status and its history. *)
Theorem rejected_and_cancelled_are_final (cs : list Api.Call) (st : Store)
    (id : N) (b : Booking.t) :
  bookings st !! id = Some b →
  Booking.status b = Booking.rejected ∨ Booking.status b = Booking.cancelled →
  ∃ b', bookings (Api.run cs st) !! id = Some b'
        ∧ Booking.status b' = Booking.status b
        ∧ Booking.statusHistory b' = Booking.statusHistory b.
Proof.
  intros Hb Hs.
  refine (run_invariant
            (λ b', Booking.status b' = Booking.status b
                   ∧ Booking.statusHistory b' = Booking.statusHistory b)
            _ cs st id b Hb (conj eq_refl eq_refl)).
  intros b1 b2 [[[Es Eh] | (He & _)] _ _ _ _ _ _ _] [E1 E2].
  - split; congruence.
  - rewrite E1 in He.
    destruct Hs as [Hs | Hs]; rewrite Hs in He;
      by destruct (Booking.status b2).
Qed.

(** X3. No request rewrites who a booking is between or what it costs:
    booking id, client, provider, service, scheduled date and the pricing
    snapshot stay what they were over any sequence of requests. *)
Theorem parties_and_pricing_are_frozen (cs : list Api.Call) (st : Store)
    (id : N) (b : Booking.t) :
  bookings st !! id = Some b →
  ∃ b', bookings (Api.run cs st) !! id = Some b'
        ∧ Booking.bookingId b' = Booking.bookingId b
        ∧ Booking.client b' = Booking.client b
        ∧ Booking.provider b' = Booking.provider b
        ∧ Booking.service b' = Booking.service b
        ∧ Booking.scheduledDate b' = Booking.scheduledDate b
        ∧ Booking.pricing b' = Booking.pricing b.
Proof.
  intros Hb.
  refine (run_invariant
            (λ b', Booking.bookingId b' = Booking.bookingId b
                   ∧ Booking.client b' = Booking.client b
                   ∧ Booking.provider b' = Booking.provider b
                   ∧ Booking.service b' = Booking.service b
                   ∧ Booking.scheduledDate b' = Booking.scheduledDate b
                   ∧ Booking.pricing b' = Booking.pricing b)
            _ cs st id b Hb _); [| done].
  intros b1 b2 [_ ? ? ? ? ? ? _] (? & ? & ? & ? & ? & ?).
  repeat split; congruence.
Qed.

Lemma status_trace_is_a_path_witness :
  bookings Scenario.atWork !! 100%N
  = Some (Scenario.booking Booking.in_progress
            (Some (Scenario.t0 - 90 * 60 * 1000 - 20000)%Z) false)
  ∧ chain (trace (Scenario.booking Booking.in_progress
                    (Some (Scenario.t0 - 90 * 60 * 1000 - 20000)%Z) false))
    = true
  ∧ ∃ b',
      bookings
        (Api.run
           [Scenario.call Scenario.t0 "uid-bob" (Api.Complete 100 "done" [])]
           Scenario.atWork) !! 100%N = Some b'
      ∧ chain (trace b') = true.
Proof.
  split; [reflexivity |]. split; [reflexivity |].
  exact (proj2 (status_trace_is_a_path
                  [Scenario.call Scenario.t0 "uid-bob"
                     (Api.Complete 100 "done" [])]
                  Scenario.atWork 100%N
                  (Scenario.booking Booking.in_progress
                     (Some (Scenario.t0 - 90 * 60 * 1000 - 20000)%Z) false)
                  eq_refl eq_refl)).
Defined.

Lemma rejected_and_cancelled_are_final_witness :
  bookings (Scenario.market Scenario.bob
              (Scenario.booking Booking.cancelled None false) []) !! 100%N
  = Some (Scenario.booking Booking.cancelled None false)
  ∧ ∃ b',
      bookings
        (Api.run
           [Scenario.call Scenario.t0 "uid-bob" (Api.Accept 100 "welcome")]
           (Scenario.market Scenario.bob
              (Scenario.booking Booking.cancelled None false) []))
        !! 100%N = Some b'
      ∧ Booking.status b' = Booking.cancelled
      ∧ Booking.statusHistory b' = [].
Proof.
  split; [reflexivity |].
  apply (rejected_and_cancelled_are_final
           [Scenario.call Scenario.t0 "uid-bob" (Api.Accept 100 "welcome")]
           (Scenario.market Scenario.bob
              (Scenario.booking Booking.cancelled None false) [])
           100%N (Scenario.booking Booking.cancelled None false) eq_refl).
  by right.
Defined.

Lemma parties_and_pricing_are_frozen_witness :
  bookings Scenario.atWork !! 100%N
  = Some (Scenario.booking Booking.in_progress
            (Some (Scenario.t0 - 90 * 60 * 1000 - 20000)%Z) false)
  ∧ ∃ b',
      bookings
        (Api.run
           [Scenario.call Scenario.t0 "uid-bob" (Api.Complete 100 "done" [])]
           Scenario.atWork) !! 100%N = Some b'
      ∧ Booking.bookingId b' = "SLH1704067200000ABCDE"
      ∧ Booking.client b' = 1%N
      ∧ Booking.provider b' = 2%N
      ∧ Booking.service b' = 10%N
      ∧ Booking.scheduledDate b' = (Scenario.t0 + 24 * Scenario.hour)%Z
      ∧ Booking.pricing b'
        = {| Booking.servicePrice := 200; Booking.addOnsPrice := 50;
             Booking.platformFee := 5; Booking.totalAmount := 255 |}.
Proof.
  split; [reflexivity |].
  apply (parties_and_pricing_are_frozen
           [Scenario.call Scenario.t0 "uid-bob" (Api.Complete 100 "done" [])]
           Scenario.atWork 100%N
           (Scenario.booking Booking.in_progress
              (Some (Scenario.t0 - 90 * 60 * 1000 - 20000)%Z) false)
           eq_refl).
Defined.

(** ** A booking is disputed once *)

Lemma dispute_rejects_disputed now user id reason description evidence st b :
  bookings st !! id = Some b →
  Booking.isDisputed (Booking.dispute b) = true →
  ∃ r, Bookings.dispute now user id reason description evidence st = (r, st)
       ∧ success r = false.
Proof.
  intros Hb Hd. unfold Bookings.dispute, Bookings.withBooking.
  rewrite Hb, Hd. repeat case_match; try (by eexists).
  match goal with
  | H : Auth.requireBookingAccess _ _ = inl _ |- _ =>
      apply requireBookingAccess_denied in H as ->
  end.
  by eexists.
Qed.

(** X4. A booking is disputed at most once. Once its isDisputed flag is
    set, every dispute call on it is refused and writes nothing, whoever
    calls and whatever the status, and no sequence of requests clears the
    flag: not even the admin's resolution reopens it for a second
    dispute. *)
Theorem disputed_once (cs : list Api.Call) (st : Store) (id : N)
    (b : Booking.t) :
  bookings st !! id = Some b →
  Booking.isDisputed (Booking.dispute b) = true →
  ∃ b', bookings (Api.run cs st) !! id = Some b'
        ∧ Booking.isDisputed (Booking.dispute b') = true
        ∧ ∀ now user reason description evidence, ∃ r,
            Bookings.dispute now user id reason description evidence
              (Api.run cs st)
            = (r, Api.run cs st)
            ∧ success r = false.
Proof.
  intros Hb Hd.
  destruct (run_invariant
              (λ b', Booking.isDisputed (Booking.dispute b') = true)
              (λ b1 b2 Hm, moves_disputed b1 b2 Hm) cs st id b Hb Hd)
    as (b' & Hb' & Hd').
  exists b'. repeat split; try done.
  intros. by eapply dispute_rejects_disputed.
Qed.

Lemma disputed_once_witness :
  bookings Scenario.confirmedThenDisputed !! 100%N
  = Some (Scenario.theBooking Scenario.confirmedThenDisputed)
  ∧ Booking.isDisputed
      (Booking.dispute (Scenario.theBooking Scenario.confirmedThenDisputed))
    = true
  ∧ ∃ b',
      bookings (Api.run [Scenario.resolve None] Scenario.confirmedThenDisputed)
        !! 100%N = Some b'
      ∧ Booking.isDisputed (Booking.dispute b') = true
      ∧ ∀ now user reason description evidence, ∃ r,
          Bookings.dispute now user 100 reason description evidence
            (Api.run [Scenario.resolve None] Scenario.confirmedThenDisputed)
          = (r, Api.run [Scenario.resolve None]
                  Scenario.confirmedThenDisputed)
          ∧ success r = false.
Proof.
  assert (H1 : bookings Scenario.confirmedThenDisputed !! 100%N
               = Some (Scenario.theBooking Scenario.confirmedThenDisputed))
    by (vm_compute; reflexivity).
  assert (H2 : Booking.isDisputed
                 (Booking.dispute
                    (Scenario.theBooking Scenario.confirmedThenDisputed))
               = true)
    by (vm_compute; reflexivity).
  split; [exact H1 |]. split; [exact H2 |].
  exact (disputed_once [Scenario.resolve None] Scenario.confirmedThenDisputed
           100%N (Scenario.theBooking Scenario.confirmedThenDisputed) H1 H2).
Defined.

(** ** The routes when they go through *)


Section RoutesGoThrough.

Variables (now : Z) (user : User.t) (id : N) (st : Store) (b : Booking.t).
Hypothesis Hb : bookings st !! id = Some b.






End RoutesGoThrough.



(** ** From request to payout *)



(** ** The wallet methods together *)


(** ** Withdrawals, whatever the request *)

(** X8. A withdrawal never overdraws and never half-happens. Whatever the
    request, every user is still there afterwards with pendingBalance and
    totalEarnings untouched and a balance that has not grown and, if it was
    not negative, still is not; and a refused request leaves the whole
    store as it was. *)
Theorem withdraw_never_overdraws (freshId : string) (reqUser : User.t)
    (userId : string) (amount : Q) (method : string) (st : Store) (k : N)
    (u : User.t) :
  users st !! k = Some u →
  let result := Payments.withdraw freshId reqUser userId amount method st in
  (success result.1 = false → result.2 = st)
  ∧ ∃ u', users result.2 !! k = Some u'
          ∧ User.pendingBalance (User.walletOf u')
            = User.pendingBalance (User.walletOf u)
          ∧ User.totalEarnings (User.walletOf u')
            = User.totalEarnings (User.walletOf u)
          ∧ (User.balance (User.walletOf u')
             <= User.balance (User.walletOf u))%Q
          ∧ ((0 <= User.balance (User.walletOf u))%Q →
             (0 <= User.balance (User.walletOf u'))%Q).
Proof.
  intros Hu. cbv zeta. route_cases;
    try (split; [done |]; exists u; repeat split; (done || apply Qle_refl)).
  split; [done |].
  match goal with
  | H : findUserByFirebaseUid _ _ = Some (?key, ?user) |- _ =>
      apply findUserByFirebaseUid_lookup in H;
      destruct (decide (key = k)) as [-> | Hne]
  end.
  - rewrite lookup_insert_eq. eexists. split; [done |]. simplify_eq.
    repeat match goal with
           | H : Number_lt _ _ = false |- _ => apply Number_lt_false in H
           | H : negb (negb (Number_lt _ _)) = false |- _ =>
               rewrite negb_involutive in H
           end.
    pose proof (Math_max_ge_r (amount * 0.02) 2).
    match goal with
    | H : negb (PaymentService.wr_success _) = false |- _ =>
        unfold PaymentService.processProviderWithdrawal in H;
        destruct (Number_lt amount 50) eqn:Emin; [done |];
        apply Number_lt_false in Emin
    end.
    cbn in *. repeat split; try done; intros; lra.
  - rewrite lookup_insert_ne by done. exists u.
    repeat split; (done || apply Qle_refl).
Qed.

Lemma withdraw_never_overdraws_witness :
  users (Scenario.funded 102) !! 2%N = Some (Scenario.bobWith 102)
  ∧ ∃ u',
      users
        (Payments.withdraw "WD_1" (Scenario.bobWith 102) "uid-bob" 100
           "bank_transfer" (Scenario.funded 102)).2 !! 2%N = Some u'
      ∧ (0 <= User.balance (User.walletOf u'))%Q.
Proof.
  split; [reflexivity |].
  destruct (withdraw_never_overdraws "WD_1" (Scenario.bobWith 102) "uid-bob"
              100 "bank_transfer" (Scenario.funded 102) 2%N
              (Scenario.bobWith 102) eq_refl)
    as (_ & u' & Hu' & _ & _ & _ & Hpos).
  exists u'. split; [exact Hu' |]. apply Hpos. discriminate.
Defined.

(** X9. The withdrawal fee is the floor of 2 EGP up to an amount of 100
    and 2 % of the amount from there on; it never falls when the amount
    grows, so neither does the total taken from the wallet. *)
Theorem withdrawal_fee_floor (a b : Q) :
  let fee x :=
    PaymentService.calculatePlatformFee x PaymentService.withdrawal in
  ((a <= 100)%Q → (fee a == 2)%Q)
  ∧ ((100 <= a)%Q → (fee a == a * 0.02)%Q)
  ∧ ((a <= b)%Q → (fee a <= fee b)%Q ∧ (a + fee a <= b + fee b)%Q).
Proof.
  cbn. unfold Math_max.
  destruct (Number_lt (a * 0.02) 2) eqn:Ea;
    [apply Number_lt_true in Ea | apply Number_lt_false in Ea];
    (destruct (Number_lt (b * 0.02) 2) eqn:Eb;
     [apply Number_lt_true in Eb | apply Number_lt_false in Eb]);
    repeat split; intros; lra.
Qed.

(** ** The webhook, when there is nothing to do *)

(** X10. The Stripe webhook writes only for a payment it finds. If no
    stored payment carries the reference the route builds ('pi_demo_' and
    the clock in ms), the reply is 'received' and the store is untouched;
    if the payment found is not a 'booking_payment', its status becomes
    'completed' and no booking and no wallet is touched. In no case does
    the webhook add or drop a payment or touch a service. *)
Theorem stripeWebhook_writes_for_found_payment (now : Z) (st : Store) :
  let reference := Payments.ev_id (Payments.demoEvent now) in
  let result := Payments.stripeWebhook now st in
  (Forall (λ p, Payment.transactionId p ≠ reference) (payments st) →
   result = (Payments.received, st))
  ∧ (∀ i p,
       findPaymentByTransactionId reference st = Some (i, p) →
       Payment.type p ≠ Payment.booking_payment →
       result
       = (Payments.received,
          savePayment i (Payment.set_status Payment.completed p) st))
  ∧ length (payments result.2) = length (payments st)
  ∧ services result.2 = services st.
Proof.
  cbv zeta. unfold Payments.stripeWebhook. repeat split.
  - intros Hnone. unfold Payments.handleStripeEvent.
    assert (findPaymentByTransactionId
              (Payments.ev_id (Payments.demoEvent now)) st = None) as ->.
    { unfold findPaymentByTransactionId. by apply list_find_None. }
    by case_match.
  - intros i p Hfind Hty. unfold Payments.handleStripeEvent.
    rewrite Hfind. cbn. by rewrite (bool_decide_eq_false_2 _ Hty).
  - route_cases; by rewrite ?length_insert.
  - route_cases; done.
Qed.

(** ** Callers the server does not know *)

Lemma authenticateUser_401 tokenUid st r :
  Auth.authenticateUser tokenUid st = inl r →
  statusCode r = 401 ∧ success r = false.
Proof.
  unfold Auth.authenticateUser. repeat case_match; by intros [= <-].
Qed.



(** ** Refusals and what they leave behind *)





(** ** When a completed booking falls due *)




(** ** Who counts as what *)



(** * Further models: ratings, totals, creation, accounts *)

(** ** Ratings *)











(** ** The total of a booking *)

Lemma Number_or_0 x : (Number_or x 0 == x)%Q.
Proof.
  unfold Number_or. destruct (Qeq_bool x 0) eqn:E; [| done].
  apply Qeq_bool_iff in E. by rewrite E.
Qed.



(** X18. calculateTotal writes pricing.totalAmount and nothing else and
    returns what it wrote: service price plus add-ons plus the platform
    fee, where a stored fee of 0 counts as 5. Calling it again changes
    nothing. *)
Theorem calculateTotal_total (b : Booking.t) :
  let b' := (BookingTotal.calculateTotal b).1 in
  let total := (BookingTotal.calculateTotal b).2 in
  Booking.totalAmount (Booking.pricing b') = total
  ∧ (total == Booking.servicePrice (Booking.pricing b)
              + Booking.addOnsPrice (Booking.pricing b)
              + (if Qeq_bool (Booking.platformFee (Booking.pricing b)) 0
                 then 5 else Booking.platformFee (Booking.pricing b)))%Q
  ∧ Booking.servicePrice (Booking.pricing b')
    = Booking.servicePrice (Booking.pricing b)
  ∧ Booking.addOnsPrice (Booking.pricing b')
    = Booking.addOnsPrice (Booking.pricing b)
  ∧ Booking.platformFee (Booking.pricing b')
    = Booking.platformFee (Booking.pricing b)
  ∧ Booking.status b' = Booking.status b
  ∧ Booking.statusHistory b' = Booking.statusHistory b
  ∧ Booking.confirmation b' = Booking.confirmation b
  ∧ Booking.dispute b' = Booking.dispute b
  ∧ BookingTotal.calculateTotal b' = (b', total).
Proof.
  cbn zeta. split; [done |]. split.
  { cbn. rewrite !Number_or_0. done. }
  repeat split; done.
Qed.

(** ** Creating a booking *)




(** X20. A booking request that is not answered 201 is a refusal with
    status 400, 403, 404 or, for a listing whose provider is gone, 500,
    and writes nothing; a valid request from anyone but a client gets 403;
    and whoever asks, a listing whose provider is not activated is never
    booked. *)
Theorem create_refusals_write_nothing (user : User.t) (valid : bool)
    (serviceId : N) (listing : option Creation.Listing) (scheduledDate : Z)
    (addOns : option (list Creation.AddOn)) (env : option Z) (newId : N)
    (bookingId : string) (st : Store) :
  let r := Creation.create user valid serviceId listing scheduledDate addOns
             env newId bookingId st in
  (statusCode r.1 ≠ 201 →
   r.2 = st ∧ success r.1 = false
   ∧ (statusCode r.1 = 400 ∨ statusCode r.1 = 403 ∨ statusCode r.1 = 404
      ∨ statusCode r.1 = 500))
  ∧ (valid = true → User.role user ≠ User.client → statusCode r.1 = 403)
  ∧ (∀ service provider,
       listing = Some service →
       Creation.provider service = Some provider →
       User.isProviderActivated provider = false →
       statusCode r.1 ≠ 201).
Proof.
  cbn zeta. unfold Creation.create. split; [| split].
  - repeat case_match; cbn; intros ?; try done; split; auto.
  - intros -> Hrole. rewrite bool_decide_eq_false_2 by done. done.
  - intros service provider -> -> Hprov. rewrite Hprov.
    repeat case_match; cbn; done.
Qed.

(** ** Accounts *)

Lemma account_set_wallet u w : account (User.set_wallet u w) = account u.
Proof. done. Qed.

Lemma account_addEarnings u a : account (User.addEarnings u a) = account u.
Proof. unfold User.addEarnings. by case_match. Qed.

Lemma account_addPendingEarnings u a :
  account (User.addPendingEarnings u a) = account u.
Proof. unfold User.addPendingEarnings. by case_match. Qed.

Lemma account_confirmEarnings u a :
  account (User.confirmEarnings u a) = account u.
Proof. unfold User.confirmEarnings. by case_match. Qed.

Lemma account_creditWallet u a :
  account (Payments.creditWallet u a) = account u.
Proof. done. Qed.

Lemma account_debitWallet u a :
  account (Payments.debitWallet u a) = account u.
Proof. done. Qed.

Lemma accounts_same st st' : users st' = users st → accounts st' = accounts st.
Proof. unfold accounts. by intros ->. Qed.

Lemma accounts_save st st' k u u' :
  users st' = <[k := u']> (users st) →
  users st !! k = Some u →
  account u' = account u →
  accounts st' = accounts st.
Proof.
  unfold accounts. intros -> Hu E. rewrite fmap_insert, E.
  apply insert_id. by rewrite lookup_fmap, Hu.
Qed.

Ltac solve_accounts :=
  first
    [ reflexivity
    | by apply accounts_same
    | eapply accounts_save;
      [ done
      | first [ eassumption | by eapply findUserByFirebaseUid_lookup ]
      | by rewrite ?account_addPendingEarnings, ?account_confirmEarnings,
          ?account_debitWallet, ?account_creditWallet,
          ?account_addEarnings ] ].

Lemma dispatch_accounts c st : accounts (Api.dispatch c st).2 = accounts st.
Proof.
  unfold Api.dispatch.
  destruct (Api.request c); try destruct (Auth.authenticateUser _ _);
    cbn [snd]; try reflexivity; route_cases;
    rewrite ?updateStatus_provider in *; solve_accounts.
Qed.

Lemma run_accounts cs : ∀ st, accounts (Api.run cs st) = accounts st.
Proof.
  induction cs as [| c cs IH]; intros st; [done |].
  by rewrite run_cons, IH, dispatch_accounts.
Qed.

Lemma accounts_lookup st st' k u' :
  accounts st' = accounts st →
  users st' !! k = Some u' →
  ∃ u, users st !! k = Some u ∧ account u = account u'.
Proof.
  unfold accounts. intros E Hu.
  assert ((account <$> users st) !! k = Some (account u')) as H.
  { by rewrite <- E, lookup_fmap, Hu. }
  rewrite lookup_fmap in H. destruct (users st !! k) as [u |]; [| done].
  exists u. split; [done | cbn in H; congruence].
Qed.

Lemma account_firebaseUid u u' :
  account u = account u' → User.firebaseUid u = User.firebaseUid u'.
Proof. by intros [= _ ? _ _ _ _]. Qed.


Lemma unique_uids_accounts st st' :
  accounts st' = accounts st →
  Users.unique_uids st → Users.unique_uids st'.
Proof.
  intros E Hu k1 u1 k2 u2 H1 H2 Huid.
  destruct (accounts_lookup _ _ _ _ E H1) as (v1 & Hv1 & E1).
  destruct (accounts_lookup _ _ _ _ E H2) as (v2 & Hv2 & E2).
  apply (Hu k1 v1 k2 v2 Hv1 Hv2).
  by rewrite (account_firebaseUid _ _ E1), (account_firebaseUid _ _ E2).
Qed.




(** X21. No booking, dispute, withdrawal or webhook request creates or
    removes a user, or changes a user's id, uid, role, active flag or
    activation flags: after any sequence of requests the accounts are the
    ones before it, and uids that were unique still are. *)
Theorem requests_keep_accounts (cs : list Api.Call) (st : Store) :
  accounts (Api.run cs st) = accounts st
  ∧ (∀ k, is_Some (users (Api.run cs st) !! k) ↔ is_Some (users st !! k))
  ∧ (Users.unique_uids st → Users.unique_uids (Api.run cs st)).
Proof.
  pose proof (run_accounts cs st) as E. split; [done |]. split.
  - intros k. unfold accounts in E.
    rewrite <- (fmap_is_Some account (users (Api.run cs st) !! k)),
      <- (fmap_is_Some account (users st !! k)), <- !lookup_fmap.
    by rewrite E.
  - by apply unique_uids_accounts.
Qed.

Lemma deleteUser_admin reqUser id u st :
  User.role reqUser = User.admin →
  users st !! id = Some u →
  Users.deleteUser reqUser id st
  = (ok "User deactivated successfully",
     saveUser id (Users.set_isActive false u) st).
Proof.
  intros Hrole Hu. unfold Users.deleteUser, Auth.requireRole.
  rewrite decide_True by done. by rewrite Hu.
Qed.




(** X23. Switching an account off and on again is a round trip: for an
    admin, 'activate' after a delete gives back the store an active user
    started from, 'deactivate' writes exactly what delete writes, and
    neither touches the wallet. *)
Theorem activate_undoes_delete (reqUser : User.t) (id : N) (u : User.t)
    (st : Store) :
  User.role reqUser = User.admin →
  users st !! id = Some u →
  User.isActive u = true →
  let st' := (Users.deleteUser reqUser id st).2 in
  (Users.manage reqUser id (Some Users.activate) st').2 = st
  ∧ (Users.manage reqUser id (Some Users.deactivate) st).2 = st'
  ∧ (User.walletOf <$> users st' !! id) = Some (User.walletOf u)
  ∧ (User.isActive <$> users st' !! id) = Some false.
Proof.
  intros Hrole Hu Hactive. cbn zeta.
  rewrite (deleteUser_admin _ _ _ _ Hrole Hu). cbn [snd].
  unfold Users.manage, Auth.requireRole. rewrite decide_True by done.
  rewrite Hu. cbn [snd saveUser users].
  rewrite lookup_insert_eq. cbn [snd fmap option_fmap option_map].
  split; [| done].
  destruct st as [us bs ss ps], u as [i uid r a p]. cbn in *. subst a.
  unfold saveUser, Users.set_isActive. cbn.
  by rewrite insert_insert_eq, insert_id.
Qed.

Lemma activate_undoes_delete_witness :
  User.role Scenario.root = User.admin
  ∧ users (Scenario.funded 0) !! 2%N = Some (Scenario.bobWith 0)
  ∧ User.isActive (Scenario.bobWith 0) = true
  ∧ (Users.manage Scenario.root 2 (Some Users.activate)
       (Users.deleteUser Scenario.root 2 (Scenario.funded 0)).2).2
    = Scenario.funded 0.
Proof.
  split; [reflexivity |]. split; [reflexivity |]. split; [reflexivity |].
  destruct (activate_undoes_delete Scenario.root 2 (Scenario.bobWith 0)
              (Scenario.funded 0) eq_refl eq_refl eq_refl) as [H _].
  exact H.
Defined.

(** ** Provider activation *)



(** X25. The activation-fee route of the payment routes cannot complete
    an activation: whatever the request and whatever the payment service
    answers, it sets no user's activationFeePaid and touches no wallet,
    role or active flag. A provider who had not paid is therefore still
    not activated afterwards, and a booking of one of their listings is
    still refused with 400. *)
Theorem activationFee_leaves_fee_unpaid (reqUser : User.t)
    (userId : string) (valid : bool) (paymentMethod : string)
    (paymentResult : Activation.PaymentResult) (st : Store) (k : N)
    (u' : User.t) :
  let r := Activation.activationFee reqUser userId valid paymentMethod
             paymentResult st in
  users r.2 !! k = Some u' →
  ∃ u,
    users st !! k = Some u
    ∧ User.activationFeePaid (User.providerInfo u')
      = User.activationFeePaid (User.providerInfo u)
    ∧ User.walletOf u' = User.walletOf u
    ∧ User.role u' = User.role u
    ∧ User.isActive u' = User.isActive u
    ∧ (User.activationFeePaid (User.providerInfo u) = false →
       User.isProviderActivated u' = false
       ∧ ∀ client serviceId amount scheduledDate addOns env newId bookingId,
           User.role client = User.client →
           Creation.create client true serviceId
             (Some (Creation.mkListing (Some u') amount true true))
             scheduledDate addOns env newId bookingId r.2
           = (fail 400 "Provider is not activated", r.2)).
Proof.
  cbn zeta. intros Hu'.
  assert (∃ u, users st !! k = Some u
               ∧ User.activationFeePaid (User.providerInfo u')
                 = User.activationFeePaid (User.providerInfo u)
               ∧ User.walletOf u' = User.walletOf u
               ∧ User.role u' = User.role u
               ∧ User.isActive u' = User.isActive u) as (u & Hu & Hpaid & H).
  { revert Hu'. unfold Activation.activationFee.
    repeat case_match; simplify_eq/=; eauto 10;
    match goal with
    | H : findUserByFirebaseUid _ _ = Some (?key, ?user) |- _ =>
        apply findUserByFirebaseUid_lookup in H;
        destruct (decide (key = k)) as [-> | Hne];
        [ rewrite lookup_insert_eq; intros [= <-]; exists user; by cbn
        | rewrite lookup_insert_ne by done; eauto 10 ]
    end. }
  exists u. split; [done |]. split; [done |].
  destruct H as (Hw & Hr & Ha). split; [done |]. split; [done |].
  split; [done |]. intros Hunpaid.
  assert (User.isProviderActivated u' = false) as Hnot.
  { unfold User.isProviderActivated. rewrite Hpaid, Hunpaid.
    by rewrite andb_false_r. }
  split; [done |]. intros client serviceId amount scheduledDate addOns env
    newId bookingId Hclient.
  unfold Creation.create. cbn.
  rewrite bool_decide_eq_true_2 by done. cbn. by rewrite Hnot.
Qed.

Lemma activationFee_leaves_fee_unpaid_witness :
  users
    (Activation.activationFee Newcomers.bob "uid-bob" true "vodafone_cash"
       (Activation.mkPaymentResult true "vodafone_cash_1704067200000_x")
       Newcomers.unactivated).2 !! 2%N
  = Some (Activation.set_activation true false Scenario.bob)
  ∧ User.isProviderActivated
      (Activation.set_activation true false Scenario.bob) = false.
Proof.
  assert (users
            (Activation.activationFee Newcomers.bob "uid-bob" true
               "vodafone_cash"
               (Activation.mkPaymentResult true
                  "vodafone_cash_1704067200000_x")
               Newcomers.unactivated).2 !! 2%N
          = Some (Activation.set_activation true false Scenario.bob)) as Hu
    by (vm_compute; reflexivity).
  split; [exact Hu |].
  destruct (activationFee_leaves_fee_unpaid Newcomers.bob "uid-bob" true
              "vodafone_cash"
              (Activation.mkPaymentResult true
                 "vodafone_cash_1704067200000_x")
              Newcomers.unactivated 2
              (Activation.set_activation true false Scenario.bob) Hu)
    as (u & Hst & _ & _ & _ & _ & H).
  assert (u = Newcomers.bob) as ->.
  { vm_compute in Hst. by injection Hst. }
  destruct (H eq_refl) as [Hnot _]. exact Hnot.
Defined.
